(** * Key-wrap algorithms of authlib's JWE backend, and the RSA key codec

    A shallow embedding of
    [authlib/jose/rfc7518/_backends/_jwe_alg_cryptography.py] and of the
    behaviour that [tests/core/test_jose/test_jwk.py] fixes for the RSA
    branch of the key codec.

    Python values are modelled as follows: [bytes] is a list of bytes, [str]
    a [string], an [int] a [Z], a [dict] with string keys a [gmap string _].
    A call that may raise returns a [res]; the algorithms run in a small
    state-and-exception monad [M] whose state holds the operating system's
    random source and the log of the calls made to the cryptographic
    backend. *)

From Stdlib Require Import ZArith Lia Zpow_facts.
From Stdlib.Strings Require Import Byte.
From stdpp Require Import base option list gmap strings pretty.

Local Open Scope Z_scope.

(** ** Python values and exceptions *)

Abbreviation bytes := (list byte).

#[global] Instance byte_eq_dec : EqDecision byte := Byte.byte_eq_dec.

(** [len(b)] *)
Definition len (b : bytes) : Z := Z.of_nat (length b).

(** The double quote character, for messages such as
    [Missing "iv" in headers]. *)
Definition dquote : string := String (Ascii.ascii_of_nat 34) EmptyString.

(** The exceptions the module and the libraries it calls raise. *)
Inductive exn : Type :=
| ValueError (msg : string)
| AttributeError (msg : string)
| TypeError (msg : string)
| InvalidUnwrap    (* cryptography.hazmat.primitives.keywrap.InvalidUnwrap *)
| InvalidTag.      (* cryptography.exceptions.InvalidTag *)

#[global] Instance exn_eq_dec : EqDecision exn.
Proof. solve_decision. Defined.

Inductive res (A : Type) : Type :=
| Return (a : A)
| Raise (e : exn).
Arguments Return {A} a.
Arguments Raise {A} e.

Definition res_bind {A B} (r : res A) (k : A -> res B) : res B :=
  match r with
  | Return a => k a
  | Raise e => Raise e
  end.

Definition res_map {A B} (f : A -> B) (r : res A) : res B :=
  res_bind r (fun a => Return (f a)).

Definition is_Return {A} (r : res A) : bool :=
  match r with Return _ => true | Raise _ => false end.

Definition is_Raise {A} (r : res A) : bool := negb (is_Return r).

(** ** Padding schemes ([cryptography.hazmat.primitives.asymmetric.padding]) *)

Inductive hash_algorithm : Type := SHA1 | SHA256.

Definition digest_size (h : hash_algorithm) : Z :=
  match h with SHA1 => 20 | SHA256 => 32 end.

Inductive mgf : Type := MGF1 (algorithm : hash_algorithm).

Inductive padding : Type :=
| PKCS1v15
| OAEP (m : mgf) (algorithm : hash_algorithm) (label : option bytes).

(** Bytes of a [k]-byte RSA block that the padding takes (RFC 8017, 7.1.1 and
    7.2.1): a message fits when its length plus this is at most [k]. *)
Definition padding_overhead (p : padding) : Z :=
  match p with
  | PKCS1v15 => 11
  | OAEP _ h _ => 2 * digest_size h + 2
  end.

(** ** The cryptographic backend

    The primitives are capability interfaces: modular exponentiation, the AES
    block transforms and the authenticated-encryption core are not part of
    the module. *)

Class Backend : Type := {
  (** the state of the operating system's random source *)
  entropy : Type;
  (** [os.urandom(n)] *)
  urandom : nat -> entropy -> bytes * entropy;

  (** RSA key objects of [cryptography], public or private *)
  rsa_key : Type;
  (** [op_key.key_size]: the bit length of the modulus *)
  rsa_key_size : rsa_key -> Z;
  (** [private_key.public_key()] *)
  rsa_public_key : rsa_key -> rsa_key;
  rsa_is_private : rsa_key -> bool;
  (** [op_key.encrypt(plaintext, padding)]; the padding is randomised *)
  rsa_encrypt : rsa_key -> bytes -> padding -> entropy -> res bytes * entropy;
  (** [op_key.decrypt(ciphertext, padding)] *)
  rsa_decrypt : rsa_key -> bytes -> padding -> res bytes;

  (** the RFC 3394 wrapping transform on a well-sized input *)
  kw_wrap : bytes -> bytes -> bytes;
  (** its inverse; [None] when the recovered initial value is not the
      default one *)
  kw_unwrap : bytes -> bytes -> option bytes;

  (** cipher contexts of AES in GCM mode *)
  gcm_ctx : Type;
  (** [Cipher(AES(key), GCM(iv), backend).encryptor()] *)
  gcm_encryptor : bytes -> bytes -> res gcm_ctx;
  (** [Cipher(AES(key), GCM(iv, tag), backend).decryptor()] *)
  gcm_decryptor : bytes -> bytes -> bytes -> res gcm_ctx;
  (** [ctx.update(data)]: the context advances, the processed bytes come out *)
  gcm_update : gcm_ctx -> bytes -> gcm_ctx * bytes;
  (** [ctx.finalize()]: a decryptor raises [InvalidTag] here when the tag
      does not verify *)
  gcm_finalize : gcm_ctx -> res (gcm_ctx * bytes);
  (** [enc.tag] *)
  gcm_tag : gcm_ctx -> bytes
}.

(** The object [key.get_op_key(operation)] returns: an RSA key object of the
    backend, or the raw bytes of a symmetric key. *)
Inductive raw_key `{Backend} : Type :=
| RawRSA (k : rsa_key)
| RawBytes (b : bytes).

(** ** The helpers of authlib that the module imports

    [Key.get_op_key] and [authlib.common.encoding] are defined in other
    modules of the package; they are taken as parameters. *)

Class Helpers `{Backend} : Type := {
  (** authlib's key objects ([RSAKey], [OctKey], [ECKey]) *)
  Key : Type;
  (** [key.get_op_key(operation)] *)
  get_op_key : Key -> string -> res raw_key;
  (** [authlib.common.encoding] *)
  to_bytes : string -> bytes;
  to_native : bytes -> string;
  urlsafe_b64encode : bytes -> bytes;
  urlsafe_b64decode : bytes -> res bytes
}.

(** ** The monad of the algorithms *)

(** A call to the backend or to the random source. *)
Inductive call : Type :=
| CallUrandom (n : nat)
| CallEncrypt
| CallDecrypt
| CallKeyWrap
| CallKeyUnwrap
| CallGcmEncryptor
| CallGcmDecryptor
| CallGcmUpdate
| CallGcmFinalize.

#[global] Instance call_eq_dec : EqDecision call.
Proof. solve_decision. Defined.

Section Monad.
Context `{Backend}.

Record world : Type := World {
  rng : entropy;
  calls : list call   (* most recent last *)
}.

Definition M (A : Type) : Type := world -> res A * world.

Definition ret {A} (a : A) : M A := fun w => (Return a, w).
Definition raise {A} (e : exn) : M A := fun w => (Raise e, w).
Definition bind {A B} (m : M A) (k : A -> M B) : M B :=
  fun w => match m w with
           | (Return a, w') => k a w'
           | (Raise e, w') => (Raise e, w')
           end.
Definition lift {A} (r : res A) : M A := fun w => (r, w).
Definition log (c : call) : M unit :=
  fun w => (Return tt, World (rng w) (calls w ++ [c])).
End Monad.

Declare Scope py_scope.
Delimit Scope py_scope with py.
Notation "x <- c1 ;; c2" := (bind c1 (fun x => c2))
  (at level 100, c1 at next level, right associativity) : py_scope.
Notation "c1 ;;; c2" := (bind c1 (fun _ => c2))
  (at level 100, right associativity) : py_scope.

Local Open Scope py_scope.

(** ** The library calls the module makes *)

Section Library.
Context `{Helpers}.

(** [os.urandom(n)] *)
Definition os_urandom (n : nat) : M bytes :=
  fun w => let '(b, e) := urandom n (rng w) in
           (Return b, World e (calls w ++ [CallUrandom n])).

(** [op_key.key_size] *)
Definition attr_key_size (op_key : raw_key) : res Z :=
  match op_key with
  | RawRSA k => Return (rsa_key_size k)
  | RawBytes _ => Raise (AttributeError "'bytes' object has no attribute 'key_size'")
  end.

(** [op_key.encrypt(plaintext, padding)] *)
Definition op_key_encrypt (op_key : raw_key) (plaintext : bytes) (pad : padding)
  : M bytes :=
  match op_key with
  | RawRSA k =>
      fun w => let '(r, e) := rsa_encrypt k plaintext pad (rng w) in
               (r, World e (calls w ++ [CallEncrypt]))
  | RawBytes _ => raise (AttributeError "'bytes' object has no attribute 'encrypt'")
  end.

(** [op_key.decrypt(ciphertext, padding)] *)
Definition op_key_decrypt (op_key : raw_key) (ciphertext : bytes) (pad : padding)
  : M bytes :=
  match op_key with
  | RawRSA k => log CallDecrypt ;;; lift (rsa_decrypt k ciphertext pad)
  | RawBytes _ => raise (AttributeError "'bytes' object has no attribute 'decrypt'")
  end.

(** [len(op_key)] *)
Definition py_len (op_key : raw_key) : res Z :=
  match op_key with
  | RawBytes b => Return (len b)
  | RawRSA _ => Raise (TypeError "object of type 'RSAKey' has no len()")
  end.

(** The bytes of a key object passed where bytes are expected. *)
Definition as_bytes (op_key : raw_key) : res bytes :=
  match op_key with
  | RawBytes b => Return b
  | RawRSA _ => Raise (TypeError "a bytes-like object is required")
  end.

(** [cryptography.hazmat.primitives.keywrap.aes_key_wrap]: the RFC 3394
    transform works on 64-bit blocks, and the function checks its arguments
    before it runs: the wrapping key is an AES key, the key to wrap has at
    least 16 bytes and a multiple of 8 bytes. *)
Definition aes_key_wrap (wrapping_key : raw_key) (key_to_wrap : bytes) : M bytes :=
  wk <- lift (as_bytes wrapping_key) ;;
  if negb (bool_decide (len wk ∈ [16; 24; 32])) then
    raise (ValueError "The wrapping key must be a valid AES key length")
  else if len key_to_wrap <? 16 then
    raise (ValueError "The key to wrap must be at least 16 bytes")
  else if negb (len key_to_wrap mod 8 =? 0) then
    raise (ValueError "The key to wrap must be a multiple of 8 bytes")
  else
    log CallKeyWrap ;;; ret (kw_wrap wk key_to_wrap).

(** [cryptography.hazmat.primitives.keywrap.aes_key_unwrap]: raises
    [InvalidUnwrap] when the wrapped key is ill-sized or the integrity check
    of RFC 3394 (the recovered initial value) fails. *)
Definition aes_key_unwrap (wrapping_key : raw_key) (wrapped_key : bytes) : M bytes :=
  if len wrapped_key <? 24 then raise InvalidUnwrap
  else if negb (len wrapped_key mod 8 =? 0) then raise InvalidUnwrap
  else
  wk <- lift (as_bytes wrapping_key) ;;
  if negb (bool_decide (len wk ∈ [16; 24; 32])) then
    raise (ValueError "The wrapping key must be a valid AES key length")
  else
    log CallKeyUnwrap ;;;
    match kw_unwrap wk wrapped_key with
    | Some r => ret r
    | None => raise InvalidUnwrap
    end.

(** [Cipher(AES(op_key), GCM(iv), backend=default_backend()).encryptor()] *)
Definition Cipher_encryptor (op_key : raw_key) (iv : bytes) : M gcm_ctx :=
  k <- lift (as_bytes op_key) ;;
  log CallGcmEncryptor ;;; lift (gcm_encryptor k iv).

(** [Cipher(AES(op_key), GCM(iv, tag), backend=default_backend()).decryptor()] *)
Definition Cipher_decryptor (op_key : raw_key) (iv tag : bytes) : M gcm_ctx :=
  k <- lift (as_bytes op_key) ;;
  log CallGcmDecryptor ;;; lift (gcm_decryptor k iv tag).

(** [ctx.update(data)] on the mutable context [ctx]: the new state of the
    context is returned with the bytes. *)
Definition ctx_update (ctx : gcm_ctx) (data : bytes) : M (gcm_ctx * bytes) :=
  log CallGcmUpdate ;;; ret (gcm_update ctx data).

(** [ctx.finalize()] *)
Definition ctx_finalize (ctx : gcm_ctx) : M (gcm_ctx * bytes) :=
  log CallGcmFinalize ;;; lift (gcm_finalize ctx).
End Library.

(** ** The algorithms *)

(** What [wrap] returns: the RSA and AES key-wrap classes return the bytes
    [ek]; the AES-GCM class returns the dict [{'ek': ek, 'header': h}]; the
    ECDH class returns [None]. *)
Inductive wrapped : Type :=
| WBytes (ek : bytes)
| WDict (ek : bytes) (header : gmap string string)
| WNone.

(** [str.format] of an [int]. *)
Definition format_int (z : Z) : string := pretty z.

Section Algorithms.
Context `{Helpers}.

(** A header mapping, as far as the module reads it: string fields. *)
Definition headers_t : Type := gmap string string.

(** *** [class RSAAlgorithm] *)

(** A key of size 2048 bits or larger MUST be used with these algorithms:
    RSA1_5, RSA-OAEP, RSA-OAEP-256 *)
Definition RSAAlgorithm_key_size : Z := 2048.

Definition RSAAlgorithm_wrap (pad : padding)
    (cek : bytes) (headers : headers_t) (key : Key) : M wrapped :=
  op_key <- lift (get_op_key key "wrapKey") ;;
  key_size <- lift (attr_key_size op_key) ;;
  if key_size <? RSAAlgorithm_key_size then
    raise (ValueError "A key of size 2048 bits or larger MUST be used")
  else
    ek <- op_key_encrypt op_key cek pad ;;
    ret (WBytes ek).

Definition RSAAlgorithm_unwrap (pad : padding)
    (ek : bytes) (headers : headers_t) (key : Key) : M bytes :=
  (* it will raise ValueError if failed *)
  op_key <- lift (get_op_key key "unwrapKey") ;;
  op_key_decrypt op_key ek pad.

(** *** [class AESAlgorithm] *)

Definition AESAlgorithm_name (key_size : Z) : string :=
  "A" +:+ format_int key_size +:+ "KW".

Definition AESAlgorithm_description (key_size : Z) : string :=
  "AES Key Wrap using " +:+ format_int key_size +:+ "-bit key".

Definition key_size_required (key_size : Z) : exn :=
  ValueError ("A key of size " +:+ format_int key_size +:+ " bits is required.").

Definition AESAlgorithm_check_key (key_size : Z) (key : raw_key) : M unit :=
  n <- lift (py_len key) ;;
  if negb (n * 8 =? key_size) then raise (key_size_required key_size)
  else ret tt.

Definition AESAlgorithm_wrap (key_size : Z)
    (cek : bytes) (headers : headers_t) (key : Key) : M wrapped :=
  op_key <- lift (get_op_key key "wrapKey") ;;
  AESAlgorithm_check_key key_size op_key ;;;
  ek <- aes_key_wrap op_key cek ;;
  ret (WBytes ek).

Definition AESAlgorithm_unwrap (key_size : Z)
    (ek : bytes) (headers : headers_t) (key : Key) : M bytes :=
  op_key <- lift (get_op_key key "unwrapKey") ;;
  AESAlgorithm_check_key key_size op_key ;;;
  cek <- aes_key_unwrap op_key ek ;;
  ret cek.

(** *** [class AESGCMAlgorithm] *)

Definition EXTRA_HEADERS : gset string := {[ "iv"; "tag" ]}.

Definition AESGCMAlgorithm_name (key_size : Z) : string :=
  "A" +:+ format_int key_size +:+ "GCMKW".

Definition AESGCMAlgorithm_description (key_size : Z) : string :=
  "Key wrapping with AES GCM using " +:+ format_int key_size +:+ "-bit key".

Definition AESGCMAlgorithm_check_key (key_size : Z) (key : raw_key) : M unit :=
  n <- lift (py_len key) ;;
  if negb (n * 8 =? key_size) then raise (key_size_required key_size)
  else ret tt.

Definition AESGCMAlgorithm_wrap (key_size : Z)
    (cek : bytes) (headers : headers_t) (key : Key) : M wrapped :=
  op_key <- lift (get_op_key key "wrapKey") ;;
  AESGCMAlgorithm_check_key key_size op_key ;;;
  (* The "iv" (initialization vector) Header Parameter value is the
     base64url-encoded representation of the 96-bit IV value *)
  let iv_size := 96 in
  iv <- os_urandom (Z.to_nat (iv_size / 8)) ;;
  enc <- Cipher_encryptor op_key iv ;;
  u <- ctx_update enc cek ;;
  f <- ctx_finalize u.1 ;;
  let ek := u.2 ++ f.2 in
  let h : gmap string string :=
    {[ "iv" := to_native (urlsafe_b64encode iv);
       "tag" := to_native (urlsafe_b64encode (gcm_tag f.1)) ]} in
  ret (WDict ek h).

(** [Missing "field" in headers] *)
Definition missing_header (field : string) : exn :=
  ValueError ("Missing " +:+ dquote +:+ field +:+ dquote +:+ " in headers").

(** [not v] for the result [v] of [headers.get(field)]: [None] and the
    empty string are false. *)
Definition falsy (v : option string) : bool :=
  match v with
  | None => true
  | Some s => bool_decide (s = "")
  end.

Definition AESGCMAlgorithm_unwrap (key_size : Z)
    (ek : bytes) (headers : headers_t) (key : Key) : M bytes :=
  op_key <- lift (get_op_key key "unwrapKey") ;;
  AESGCMAlgorithm_check_key key_size op_key ;;;
  let iv := headers !! "iv" in
  if falsy iv then raise (missing_header "iv") else
  let tag := headers !! "tag" in
  if falsy tag then raise (missing_header "tag") else
  iv <- lift (urlsafe_b64decode (to_bytes (default "" iv))) ;;
  tag <- lift (urlsafe_b64decode (to_bytes (default "" tag))) ;;
  d <- Cipher_decryptor op_key iv tag ;;
  u <- ctx_update d ek ;;
  f <- ctx_finalize u.1 ;;
  let cek := u.2 ++ f.2 in
  ret cek.

(** *** [class ECDHAlgorithm] *)

Definition ECDHAlgorithm_name (key_size : option Z) : string :=
  match key_size with
  | None => "ECDH-ES"
  | Some key_size => "ECDH-ES+A" +:+ format_int key_size +:+ "KW"
  end.

(** [pass]: the method returns [None]. *)
Definition ECDHAlgorithm_wrap (key_size : option Z)
    (cek : bytes) (headers : headers_t) (key : Key) : M wrapped :=
  ret WNone.

Definition ECDHAlgorithm_unwrap (key_size : option Z)
    (ek : bytes) (headers : headers_t) (key : Key) : M (option bytes) :=
  ret None.
End Algorithms.

(** ** The algorithm instances and their list *)

(** An instance of one of the four classes, with the arguments of its
    constructor. *)
Inductive JWEAlgorithm : Type :=
| RSAAlgorithm (name description : string) (pad_fn : padding)
| AESAlgorithm (key_size : Z)
| AESGCMAlgorithm (key_size : Z)
| ECDHAlgorithm (key_size : option Z).

#[global] Instance hash_algorithm_eq_dec : EqDecision hash_algorithm.
Proof. solve_decision. Defined.
#[global] Instance mgf_eq_dec : EqDecision mgf.
Proof. solve_decision. Defined.
#[global] Instance padding_eq_dec : EqDecision padding.
Proof. solve_decision. Defined.
#[global] Instance JWEAlgorithm_eq_dec : EqDecision JWEAlgorithm.
Proof. solve_decision. Defined.

(** [algorithm.name] *)
Definition name (alg : JWEAlgorithm) : string :=
  match alg with
  | RSAAlgorithm name _ _ => name
  | AESAlgorithm key_size => AESAlgorithm_name key_size
  | AESGCMAlgorithm key_size => AESGCMAlgorithm_name key_size
  | ECDHAlgorithm key_size => ECDHAlgorithm_name key_size
  end.

(** [algorithm.description] *)
Definition description (alg : JWEAlgorithm) : option string :=
  match alg with
  | RSAAlgorithm _ description _ => Some description
  | AESAlgorithm key_size => Some (AESAlgorithm_description key_size)
  | AESGCMAlgorithm key_size => Some (AESGCMAlgorithm_description key_size)
  | ECDHAlgorithm _ => None
  end.

Definition JWE_ALG_ALGORITHMS : list JWEAlgorithm := [
  RSAAlgorithm "RSA1_5" "RSAES-PKCS1-v1_5" PKCS1v15;
  RSAAlgorithm "RSA-OAEP" "RSAES OAEP using default parameters"
    (OAEP (MGF1 SHA1) SHA1 None);
  RSAAlgorithm "RSA-OAEP-256" "RSAES OAEP using SHA-256 and MGF1 with SHA-256"
    (OAEP (MGF1 SHA256) SHA256 None);
  AESAlgorithm 128;     (* A128KW *)
  AESAlgorithm 192;     (* A192KW *)
  AESAlgorithm 256;     (* A256KW *)
  AESGCMAlgorithm 128;  (* A128GCMKW *)
  AESGCMAlgorithm 192;  (* A192GCMKW *)
  AESGCMAlgorithm 256   (* A256GCMKW *)
].

(** Modelled from the spec: the registry, which is built outside this module.
    It maps the name of each instance of the list to the instance, is built
    once from the list, and a lookup of a name that is not a key fails (the
    spec's [UnknownAlgorithm]; here [None]). *)
Definition registry : gmap string JWEAlgorithm :=
  foldl (fun reg alg => <[name alg := alg]> reg) ∅ JWE_ALG_ALGORITHMS.

Definition resolve_algorithm (alg_name : string) : option JWEAlgorithm :=
  registry !! alg_name.

(** The registry keys as the spec lists them. *)
Definition spec_algorithm_names : list string := [
  "RSA1_5"; "RSA-OAEP"; "RSA-OAEP-256";
  "A128KW"; "A192KW"; "A256KW";
  "A128GCMKW"; "A192GCMKW"; "A256GCMKW";
  "ECDH-ES"; "ECDH-ES+A128KW"; "ECDH-ES+A192KW"; "ECDH-ES+A256KW"
].

(** The names the spec calls reserved. *)
Definition reserved_names : list string :=
  ["ECDH-ES"; "ECDH-ES+A128KW"; "ECDH-ES+A192KW"; "ECDH-ES+A256KW"].

Definition is_RSA (alg : JWEAlgorithm) : bool :=
  match alg with RSAAlgorithm _ _ _ => true | _ => false end.
Definition is_AESKW (alg : JWEAlgorithm) : bool :=
  match alg with AESAlgorithm _ => true | _ => false end.
Definition is_AESGCMKW (alg : JWEAlgorithm) : bool :=
  match alg with AESGCMAlgorithm _ => true | _ => false end.

Section Dispatch.
Context `{Helpers}.

(** [algorithm.wrap(cek, headers, key)] *)
Definition wrap (alg : JWEAlgorithm)
    (cek : bytes) (headers : headers_t) (key : Key) : M wrapped :=
  match alg with
  | RSAAlgorithm _ _ pad_fn => RSAAlgorithm_wrap pad_fn cek headers key
  | AESAlgorithm key_size => AESAlgorithm_wrap key_size cek headers key
  | AESGCMAlgorithm key_size => AESGCMAlgorithm_wrap key_size cek headers key
  | ECDHAlgorithm key_size => ECDHAlgorithm_wrap key_size cek headers key
  end.

(** [algorithm.unwrap(ek, headers, key)]; [None] is Python's [None]. *)
Definition unwrap (alg : JWEAlgorithm)
    (ek : bytes) (headers : headers_t) (key : Key) : M (option bytes) :=
  match alg with
  | RSAAlgorithm _ _ pad_fn =>
      cek <- RSAAlgorithm_unwrap pad_fn ek headers key ;; ret (Some cek)
  | AESAlgorithm key_size =>
      cek <- AESAlgorithm_unwrap key_size ek headers key ;; ret (Some cek)
  | AESGCMAlgorithm key_size =>
      cek <- AESGCMAlgorithm_unwrap key_size ek headers key ;; ret (Some cek)
  | ECDHAlgorithm key_size => ECDHAlgorithm_unwrap key_size ek headers key
  end.

(** The receiving side of the identity [unwrap(wrap(cek, {}, key))]: the
    wrapped key goes to [unwrap], with the header fields [wrap] produced
    merged into [headers]. *)
Definition unwrap_wrapped (alg : JWEAlgorithm)
    (r : wrapped) (headers : headers_t) (key : Key) : M (option bytes) :=
  match r with
  | WBytes ek => unwrap alg ek headers key
  | WDict ek h => unwrap alg ek (h ∪ headers) key
  | WNone => ret None
  end.

(** The identity of the spec, for one algorithm, key and CEK: [wrap] on
    empty headers returns, and [unwrap] of what it returned gives the CEK
    back. *)
Definition wrap_unwrap_identity (alg : JWEAlgorithm) (key : Key)
    (cek : bytes) (w : world) : Prop :=
  exists r w1 w2,
    wrap alg cek ∅ key w = (Return r, w1) /\
    unwrap_wrapped alg r ∅ key w1 = (Return (Some cek), w2).

(** The result shape of the spec, for one run: a structure that holds [ek]
    and a header mapping, the mapping being empty when the algorithm is an
    RSA or an AES-KW one. *)
Definition returns_ek_with_headers (alg : JWEAlgorithm) (r : res wrapped) : Prop :=
  exists ek h, r = Return (WDict ek h) /\
    (is_RSA alg || is_AESKW alg = true -> h = ∅).

(** A key that fits the algorithm: both operations give a key object of the
    family the algorithm needs, of the size it needs; for RSA the wrapping
    key is the public half of the unwrapping key. *)
Definition valid_key (alg : JWEAlgorithm) (key : Key) : Prop :=
  match alg with
  | RSAAlgorithm _ _ _ =>
      exists sk, rsa_is_private sk = true /\
        get_op_key key "wrapKey" = Return (RawRSA (rsa_public_key sk)) /\
        get_op_key key "unwrapKey" = Return (RawRSA sk) /\
        RSAAlgorithm_key_size <= rsa_key_size sk
  | AESAlgorithm key_size | AESGCMAlgorithm key_size =>
      exists k, get_op_key key "wrapKey" = Return (RawBytes k) /\
        get_op_key key "unwrapKey" = Return (RawBytes k) /\
        len k * 8 = key_size
  | ECDHAlgorithm _ => False
  end.

(** What the identity needs of the primitives: each decryption inverts its
    encryption on the inputs the encryption accepts, the random source
    gives as many bytes as asked, and the base64url helpers invert each
    other. *)
Class Laws : Prop := {
  urandom_length : forall n e, length (urandom n e).1 = n;
  rsa_public_key_size : forall sk,
    rsa_key_size (rsa_public_key sk) = rsa_key_size sk;
  rsa_round_trip : forall sk m pad e,
    rsa_is_private sk = true ->
    len m + padding_overhead pad <= rsa_key_size sk / 8 ->
    exists c e', rsa_encrypt (rsa_public_key sk) m pad e = (Return c, e') /\
                 rsa_decrypt sk c pad = Return m;
  kw_round_trip : forall k m,
    len k ∈ [16; 24; 32] -> 16 <= len m -> len m mod 8 = 0 ->
    kw_unwrap k (kw_wrap k m) = Some m /\ len (kw_wrap k m) = len m + 8;
  gcm_round_trip : forall k iv m,
    len k ∈ [16; 24; 32] -> len iv = 12 ->
    exists enc f d g,
      gcm_encryptor k iv = Return enc /\
      gcm_finalize (gcm_update enc m).1 = Return f /\
      gcm_tag f.1 <> [] /\
      gcm_decryptor k iv (gcm_tag f.1) = Return d /\
      gcm_finalize (gcm_update d ((gcm_update enc m).2 ++ f.2)).1 = Return g /\
      (gcm_update d ((gcm_update enc m).2 ++ f.2)).2 ++ g.2 = m;
  b64_round_trip : forall b,
    urlsafe_b64decode (to_bytes (to_native (urlsafe_b64encode b))) = Return b;
  b64_nonempty : forall b,
    b <> [] -> to_native (urlsafe_b64encode b) <> ""
}.
End Dispatch.

(** ** Notions for the further properties *)

Definition is_ECDH (alg : JWEAlgorithm) : bool :=
  match alg with ECDHAlgorithm _ => true | _ => false end.

(** The characters of a string. *)
Definition chars (s : string) : list Ascii.ascii := String.list_ascii_of_string s.

(** The characters [str.format] prints an [int] with. *)
Definition int_chars : list Ascii.ascii := chars "-0123456789".

Section Oblivious.
Context `{Backend}.

(** A computation that does not look at the state: whatever the random
    source and the log, it gives the same result, leaves the random source
    as it is and appends the same calls to the log. *)
Definition oblivious {A} (m : M A) : Prop :=
  exists r cs, forall w, m w = (r, World (rng w) (calls w ++ cs)).
End Oblivious.

(** ** A small backend

    An instance of the interfaces on which the algorithms can be run: the
    ciphers mask each byte with a constant, the tag of the GCM contexts is
    cut from the plaintext. It has none of the security of the real
    primitives and all of their interface: sizes, guards and exceptions. *)

Module Toy.

Definition mask (b : byte) : byte :=
  default b (Byte.of_N (N.lxor (Byte.to_N b) 92)).

Definition nat_byte (n : nat) : byte :=
  default x00 (Byte.of_N (N.of_nat n mod 256)).

Record toy_rsa_key : Type := ToyRsaKey { bits : Z; is_private : bool }.

Record toy_ctx : Type := ToyCtx { expect : option bytes; seen : bytes }.

(** The tag: the first 16 bytes of the plaintext, padded with zeros. *)
Definition toy_tag (plaintext : bytes) : bytes :=
  take 16 (plaintext ++ replicate 16 x00).

Definition aiv : bytes := replicate 8 xa6.

Definition aes_key_sizes : list Z := [16; 24; 32].

#[export] Instance backend : Backend := {|
  entropy := nat;
  urandom n e := ((fun i => nat_byte (e + i)) <$> seq 0 n, (e + n)%nat);
  rsa_key := toy_rsa_key;
  rsa_key_size := bits;
  rsa_public_key k := ToyRsaKey (bits k) false;
  rsa_is_private := is_private;
  rsa_encrypt k m pad e :=
    if is_private k then
      (Raise (AttributeError "'RSAPrivateKey' object has no attribute 'encrypt'"), e)
    else if bits k / 8 <? len m + padding_overhead pad then
      (Raise (ValueError "Encryption failed"), e)
    else (Return (mask <$> m), e);
  rsa_decrypt k c pad :=
    if is_private k then Return (mask <$> c)
    else Raise (AttributeError "'RSAPublicKey' object has no attribute 'decrypt'");
  kw_wrap k m := aiv ++ (mask <$> m);
  kw_unwrap k c :=
    if bool_decide (take 8 c = aiv) then Some (mask <$> drop 8 c) else None;
  gcm_ctx := toy_ctx;
  gcm_encryptor k iv :=
    if bool_decide (len k ∈ aes_key_sizes) then Return (ToyCtx None [])
    else Raise (ValueError "Invalid key size for AES");
  gcm_decryptor k iv tag :=
    if bool_decide (len k ∈ aes_key_sizes) then
      if len tag <? 16 then
        Raise (ValueError "Authentication tag must be 16 bytes or longer.")
      else Return (ToyCtx (Some tag) [])
    else Raise (ValueError "Invalid key size for AES");
  gcm_update ctx data :=
    match expect ctx with
    | None => (ToyCtx None (seen ctx ++ data), mask <$> data)
    | Some t => (ToyCtx (Some t) (seen ctx ++ (mask <$> data)), mask <$> data)
    end;
  gcm_finalize ctx :=
    match expect ctx with
    | None => Return (ctx, [])
    | Some t =>
        if bool_decide (t = toy_tag (seen ctx)) then Return (ctx, [])
        else Raise InvalidTag
    end;
  gcm_tag ctx := toy_tag (seen ctx)
|}.

Inductive toy_key : Type :=
| ToyRSA (bits : Z) (private : bool)
| ToyOct (k : bytes).

Definition PUBLIC_KEY_OPS : list string := ["verify"; "encrypt"; "wrapKey"].

#[export] Instance helpers : Helpers := {|
  Key := toy_key;
  get_op_key key operation :=
    match key with
    | ToyOct k => Return (RawBytes k)
    | ToyRSA b private =>
        if bool_decide (operation ∈ PUBLIC_KEY_OPS) then
          Return (RawRSA (ToyRsaKey b false))
        else if private then Return (RawRSA (ToyRsaKey b true))
        else Raise (ValueError "Invalid key_op for public key")
    end;
  to_bytes := String.list_byte_of_string;
  to_native := String.string_of_list_byte;
  urlsafe_b64encode b := b;
  urlsafe_b64decode b := Return b
|}.

(** The base64url alphabet. *)
Definition b64url_alphabet : bytes :=
  String.list_byte_of_string
    "ABCDEFGHIJKLMNOPQRSTUVWXYZabcdefghijklmnopqrstuvwxyz0123456789-_=".

(** Helpers whose decoder, like the real one, rejects a string with a
    character outside the base64url alphabet. *)
Definition strict_helpers : Helpers := {|
  Key := toy_key;
  get_op_key := get_op_key (Helpers := helpers);
  to_bytes := String.list_byte_of_string;
  to_native := String.string_of_list_byte;
  urlsafe_b64encode b := b;
  urlsafe_b64decode b :=
    if forallb (fun x => bool_decide (x ∈ b64url_alphabet)) b then Return b
    else Raise (ValueError "Invalid base64-encoded string")
|}.

(** An octet key for the strict helpers. *)
Definition oct_strict (k : bytes) : @Key backend strict_helpers := ToyOct k.

(** The initial state: a random source and an empty log. *)
Definition w0 : world := World (7%nat : entropy) [].

(** Keys of the small backend, at the types of the interfaces. *)
Definition rsa_private (b : Z) : Key := ToyRSA b true.
Definition oct (k : bytes) : Key := ToyOct k.
Definition public_half (b : Z) : rsa_key := ToyRsaKey b false.
Definition private_half (b : Z) : rsa_key := ToyRsaKey b true.

(** A public RSA key, which has no private half to unwrap with. *)
Definition rsa_public (b : Z) : Key := ToyRSA b false.

(** The state after some draws and calls. *)
Definition w1 : world := World (40%nat : entropy) [CallUrandom 12; CallDecrypt].

Definition RSA1_5 : JWEAlgorithm :=
  RSAAlgorithm "RSA1_5" "RSAES-PKCS1-v1_5" PKCS1v15.

Definition key15 : bytes := replicate 15 x2a.
Definition key16 : bytes := replicate 16 x2a.

(** 24 zero bytes: sized like a wrapped key, without the initial value *)
Definition ek_bad : bytes := replicate 24 x00.
Definition cek16 : bytes := nat_byte <$> seq 0 16.
Definition cek17 : bytes := nat_byte <$> seq 0 17.
Definition cek32 : bytes := nat_byte <$> seq 0 32.
Definition cek200 : bytes := nat_byte <$> seq 0 200.

(** What the small backend gives for [cek16] under [key16] from [w0]: the
    IV it draws, the wrapped keys, the headers. *)
Definition iv12 : bytes := nat_byte <$> seq 7 12.
Definition ek16 : bytes := mask <$> cek16.
Definition wrapped16 : bytes := aiv ++ (mask <$> cek16).
Definition headers16 : headers_t :=
  {[ "iv" := String.string_of_list_byte iv12;
     "tag" := String.string_of_list_byte (toy_tag cek16) ]}.

(** Header mappings for the edge cases of [unwrap]. *)
Definition headers_alg : headers_t := <["alg" := "A128GCMKW"]> headers16.
Definition headers_empty_iv : headers_t := {[ "iv" := ""; "tag" := "AAAA" ]}.
Definition headers_bad_iv : headers_t := {[ "iv" := "a b"; "tag" := "AAAA" ]}.

End Toy.

(** ** The RSA branch of the key codec

    [jwk.loads] and [jwk.dumps] are defined in other modules of the package;
    the tests of [tests/core/test_jose/test_jwk.py] call them. *)

Module JWK.

(** A field of a key document: a string, or an integer (in the document,
    the base64url of its big-endian bytes; the tests compare such fields
    by value, through [base64_to_int]). *)
Inductive field : Type :=
| Str (s : string)
| Int (z : Z).

#[global] Instance field_eq_dec : EqDecision field.
Proof. solve_decision. Defined.

Abbreviation document := (gmap string field).

(** The integer of a field, when the document has it. *)
Definition get_int (obj : document) (f : string) : option Z :=
  match obj !! f with
  | Some (Int z) => Some z
  | _ => None
  end.

(** The error kinds of the codec (section 7 of the spec); in Python each
    is a [ValueError]. *)
Inductive key_error : Type :=
| InvalidKeyFormat
| IncompleteKey
| AmbiguousKeyFamily.

Record RSAPrivateNumbers : Type := {
  d : Z; p : Z; q : Z; dp : Z; dq : Z; qi : Z
}.

Record RSAKey : Type := {
  n : Z; e : Z; private : option RSAPrivateNumbers
}.

Inductive loaded : Type :=
| Loaded (key : RSAKey)
| Failed (err : key_error).

(** The CRT parameters of a private key with primes [p] and [q]. *)
Definition rsa_crt_dmp1 (d p : Z) : Z := d mod (p - 1).
Definition rsa_crt_dmq1 (d q : Z) : Z := d mod (q - 1).
Definition rsa_crt_iqmp (p q : Z) : Z := Z.invmod q p.

Definition derive (n e d p q : Z) : RSAKey :=
  {| n := n; e := e;
     private := Some {| d := d; p := p; q := q;
                        dp := rsa_crt_dmp1 d p;
                        dq := rsa_crt_dmq1 d q;
                        qi := rsa_crt_iqmp p q |} |}.

Section Load.
(** The recovery of the primes from [(n, e, d)] is a primitive of the
    cryptographic library; [None] when it finds no factors. *)
Variable recover : Z -> Z -> Z -> option (Z * Z).

Definition has (obj : document) (f : string) : bool :=
  bool_decide (is_Some (get_int obj f)).

(** Modelled from the spec: [RSAKey.import_key], the RSA branch of
    [load], which is missing from the sources. The spec gives: the
    discriminator [kty] and the fields [n] and [e] are required
    ([InvalidKeyFormat]); a private component needs [d]; with [p] and
    [q], the parameters [dp], [dq], [qi] are derived when missing. The
    tests of the repository give the two remaining cases, and the model
    follows them: a document with [d] and none of [p], [q], [dp], [dq],
    [qi] loads, the primes being recovered from [(n, e, d)]
    ([test_rsa_private_key2]); a document with [d] and only one of [p]
    and [q] is rejected ([test_invalid_rsa]). *)
Definition load_rsa (obj : document) : loaded :=
  match obj !! "kty" with
  | Some (Str kty) =>
      if negb (bool_decide (kty = "RSA")) then Failed InvalidKeyFormat else
      match get_int obj "n", get_int obj "e" with
      | Some n, Some e =>
          match get_int obj "d" with
          | None =>
              if has obj "p" || has obj "q" || has obj "dp"
                 || has obj "dq" || has obj "qi"
              then Failed IncompleteKey
              else Loaded {| n := n; e := e; private := None |}
          | Some d =>
              match get_int obj "p", get_int obj "q" with
              | Some p, Some q =>
                  Loaded {| n := n; e := e;
                    private := Some {|
                      d := d; p := p; q := q;
                      dp := default (rsa_crt_dmp1 d p) (get_int obj "dp");
                      dq := default (rsa_crt_dmq1 d q) (get_int obj "dq");
                      qi := default (rsa_crt_iqmp p q) (get_int obj "qi") |} |}
              | None, None =>
                  if has obj "dp" || has obj "dq" || has obj "qi"
                  then Failed IncompleteKey
                  else match recover n e d with
                       | Some (p, q) => Loaded (derive n e d p q)
                       | None => Failed InvalidKeyFormat
                       end
              | _, _ => Failed IncompleteKey
              end
          end
      | _, _ => Failed InvalidKeyFormat
      end
  | _ => Failed InvalidKeyFormat
  end.
End Load.

(** Modelled from the spec: [dump] of an RSA key with the family hint,
    missing from the sources: the public fields, and the private fields
    only when the key is a private key. A hint other than [RSA] does not
    fit an RSA key. *)
Definition dump_rsa (key : RSAKey) (kty : string) : option document :=
  if negb (bool_decide (kty = "RSA")) then None else
  let pub : document :=
    {[ "kty" := Str "RSA"; "n" := Int (n key); "e" := Int (e key) ]} in
  match private key with
  | None => Some pub
  | Some k =>
      Some (<["d" := Int (d k)]> (<["p" := Int (p k)]> (<["q" := Int (q k)]>
           (<["dp" := Int (dp k)]> (<["dq" := Int (dq k)]>
           (<["qi" := Int (qi k)]> pub))))))
  end.

(** *** The recovery of the primes

    [rsa_recover_prime_factors] of the cryptographic library: with
    [ktot = d*e - 1 = t * 2^s], [t] odd, it looks among the powers
    [a^(t*2^i) mod n], for [a = 2, 4, ...] below 1000, for a square root of
    1 other than 1 and [n - 1]; such a root [cand] gives the factor
    [gcd(cand + 1, n)]. *)

Fixpoint odd_part (x : positive) : positive :=
  match x with
  | xO x' => odd_part x'
  | _ => x
  end.

Fixpoint find_root (fuel : nat) (a k ktot n : Z) : option Z :=
  match fuel with
  | O => None
  | S fuel =>
      if k <? ktot then
        let cand := Zpow_mod a k n in
        if negb (cand =? 1) && negb (cand =? n - 1)
           && (Zpow_mod cand 2 n =? 1)
        then Some (Z.gcd (cand + 1) n)
        else find_root fuel a (k * 2) ktot n
      else None
  end.

Fixpoint find_factor (fuel : nat) (a t ktot n : Z) : option Z :=
  match fuel with
  | O => None
  | S fuel =>
      if a <? 1000 then
        match find_root (S (Z.to_nat (Z.log2 ktot))) a t ktot n with
        | Some p => Some p
        | None => find_factor fuel (a + 2) t ktot n
        end
      else None
  end.

Definition rsa_recover_prime_factors (n e d : Z) : option (Z * Z) :=
  match d * e - 1 with
  | Zpos ktot =>
      match find_factor 500 2 (Zpos (odd_part ktot)) (Zpos ktot) n with
      | Some p =>
          if (0 <? p) && (n mod p =? 0) then
            let q := n / p in Some (Z.max p q, Z.min p q)
          else None
      | None => None
      end
  | _ => None
  end.

(** *** The tests of [test_jwk.py] on RSA keys

    Each test is a function of the codec under test and of the key file
    [jwk_private.json], which is not among the sources; it returns [true]
    when no assertion fails and nothing is raised. *)

Section Tests.
Variable loads : document -> loaded.
Variable dumps : RSAKey -> string -> option document.
Variable RSA_PRIVATE_KEY : document.

(** [assertBase64IntEqual(x, y)], on the results of two subscriptions
    (a missing key raises [KeyError]) *)
Definition assertBase64IntEqual (x y : option field) : bool :=
  match x, y with
  | Some (Int a), Some (Int b) => a =? b
  | _, _ => false
  end.

(** [assertRaises(ValueError, jwk.loads, obj)] *)
Definition assertRaises_loads (obj : document) : bool :=
  match loads obj with
  | Failed _ => true
  | Loaded _ => false
  end.

Definition test_rsa_private_key : bool :=
  let obj := RSA_PRIVATE_KEY in
  match loads obj with
  | Failed _ => false
  | Loaded key =>
      match dumps key "RSA" with
      | None => false
      | Some new_obj =>
          forallb (fun f => assertBase64IntEqual (new_obj !! f) (obj !! f))
                  ["n"; "e"; "d"; "p"; "q"; "dp"; "dq"; "qi"]
      end
  end.

Definition test_rsa_private_key2 : bool :=
  match RSA_PRIVATE_KEY !! "n", RSA_PRIVATE_KEY !! "d" with
  | Some key_n, Some key_d =>
      let obj : document :=
        {[ "kty" := Str "RSA";
           "kid" := Str "bilbo.baggins@hobbiton.example";
           "use" := Str "sig";
           "n" := key_n;
           "d" := key_d;
           "e" := Int 65537 (* "AQAB" *) ]} in
      match loads obj with
      | Failed _ => false
      | Loaded key =>
          match dumps key "RSA" with
          | None => false
          | Some new_obj =>
              forallb (fun f => assertBase64IntEqual (new_obj !! f) (obj !! f))
                      ["n"; "e"; "d"]
              && forallb (fun f => assertBase64IntEqual (new_obj !! f)
                                     (RSA_PRIVATE_KEY !! f))
                         ["p"; "q"; "dp"; "dq"; "qi"]
          end
      end
  | _, _ => false
  end.

(** The two assertions of [test_invalid_rsa] on [jwk.loads]. *)
Definition test_invalid_rsa : bool :=
  match RSA_PRIVATE_KEY !! "n", RSA_PRIVATE_KEY !! "d",
        RSA_PRIVATE_KEY !! "p" with
  | Some key_n, Some key_d, Some key_p =>
      let obj : document :=
        {[ "kty" := Str "RSA";
           "kid" := Str "bilbo.baggins@hobbiton.example";
           "use" := Str "sig";
           "n" := key_n;
           "d" := key_d;
           "p" := key_p;
           "e" := Int 65537 (* "AQAB" *) ]} in
      assertRaises_loads obj
      && assertRaises_loads {[ "kty" := Str "RSA" ]}
  | _, _, _ => false
  end.
End Tests.

(** A private key with the public exponent of the tests, on small primes:
    [n = 61 * 53], [e = 65537], [d = 2753]. *)
Definition small_private_key : document :=
  {[ "kty" := Str "RSA";
     "n" := Int 3233; "e" := Int 65537; "d" := Int 2753;
     "p" := Int 61; "q" := Int 53;
     "dp" := Int 53; "dq" := Int 49; "qi" := Int 38 ]}.


End JWK.

(** * Properties *)

(** Unfolds the monad so that a run of an algorithm reduces. *)
Ltac run_monad :=
  unfold bind, lift, ret, raise, log; cbn [fst snd].

Ltac run_with H := run_monad; rewrite ?H; cbn.

(** ** RSA: the size floor of [wrap], and its absence in [unwrap] *)

Section RSAProperties.
Context `{Helpers}.

Lemma RSAAlgorithm_wrap_small pad cek headers key k w :
  get_op_key key "wrapKey" = Return (RawRSA k) ->
  rsa_key_size k < 2048 ->
  RSAAlgorithm_wrap pad cek headers key w
  = (Raise (ValueError "A key of size 2048 bits or larger MUST be used"), w).
Proof.
  intros Hk Hsmall. unfold RSAAlgorithm_wrap, RSAAlgorithm_key_size.
  run_with Hk.
  destruct (Z.ltb_spec (rsa_key_size k) 2048); [reflexivity | lia].
Qed.

Lemma RSAAlgorithm_wrap_large pad cek headers key k w :
  get_op_key key "wrapKey" = Return (RawRSA k) ->
  2048 <= rsa_key_size k ->
  RSAAlgorithm_wrap pad cek headers key w
  = (res_map WBytes (rsa_encrypt k cek pad (rng w)).1,
     World (rsa_encrypt k cek pad (rng w)).2 (calls w ++ [CallEncrypt])).
Proof.
  intros Hk Hlarge. unfold RSAAlgorithm_wrap, RSAAlgorithm_key_size.
  run_with Hk.
  destruct (Z.ltb_spec (rsa_key_size k) 2048); [lia |].
  destruct (rsa_encrypt k cek pad (rng w)) as [[ek | e] e']; reflexivity.
Qed.

Lemma RSAAlgorithm_unwrap_decrypts pad ek headers key k w :
  get_op_key key "unwrapKey" = Return (RawRSA k) ->
  RSAAlgorithm_unwrap pad ek headers key w
  = (rsa_decrypt k ek pad, World (rng w) (calls w ++ [CallDecrypt])).
Proof.
  intros Hk. unfold RSAAlgorithm_unwrap. run_with Hk. reflexivity.
Qed.

(** C3. For every RSA variant, [wrap] with a key whose modulus has fewer
    than 2048 bits raises the size error ([KeyTooSmall]) and calls nothing;
    with any larger key it goes on to the encryption, whose result it
    returns. The check is a plain comparison on every path. *)
Theorem C3_rsa_wrap_enforces_2048_floor
    (name description : string) (pad_fn : padding)
    (cek : bytes) (headers : headers_t) (key : Key) (k : rsa_key) (w : world) :
  get_op_key key "wrapKey" = Return (RawRSA k) ->
  (rsa_key_size k < 2048 ->
     wrap (RSAAlgorithm name description pad_fn) cek headers key w
     = (Raise (ValueError "A key of size 2048 bits or larger MUST be used"), w))
  /\
  (2048 <= rsa_key_size k ->
     wrap (RSAAlgorithm name description pad_fn) cek headers key w
     = (res_map WBytes (rsa_encrypt k cek pad_fn (rng w)).1,
        World (rsa_encrypt k cek pad_fn (rng w)).2 (calls w ++ [CallEncrypt]))).
Proof.
  intros Hk. split; intros Hsize; cbn [wrap].
  - by apply RSAAlgorithm_wrap_small with k.
  - by apply RSAAlgorithm_wrap_large.
Qed.

(** C10. [unwrap] of an RSA variant compares no size: whatever the bit
    length of the key, it calls the decryption and returns what the
    decryption returns or raises; a key that [wrap] rejects as too small
    is decrypted with all the same. *)
Theorem C10_rsa_unwrap_has_no_size_check
    (name description : string) (pad_fn : padding)
    (ek : bytes) (headers : headers_t) (key : Key) (k : rsa_key) (w : world) :
  get_op_key key "unwrapKey" = Return (RawRSA k) ->
  unwrap (RSAAlgorithm name description pad_fn) ek headers key w
  = (res_map Some (rsa_decrypt k ek pad_fn),
     World (rng w) (calls w ++ [CallDecrypt]))
  /\
  (forall pk cek,
     get_op_key key "wrapKey" = Return (RawRSA pk) ->
     rsa_key_size pk < 2048 ->
     wrap (RSAAlgorithm name description pad_fn) cek headers key w
     = (Raise (ValueError "A key of size 2048 bits or larger MUST be used"), w)).
Proof.
  intros Hk. split.
  - cbn [unwrap]. unfold bind at 1.
    rewrite (RSAAlgorithm_unwrap_decrypts _ _ _ _ _ _ Hk).
    destruct (rsa_decrypt k ek pad_fn); reflexivity.
  - intros pk cek Hpk Hsmall. cbn [wrap].
    by apply RSAAlgorithm_wrap_small with pk.
Qed.
End RSAProperties.

(** ** AES key wrap and AES-GCM key wrap: the key size, the headers, the
    integrity check *)

Section AESProperties.
Context `{Helpers}.

Lemma check_key_mismatch key_size k w :
  len k * 8 <> key_size ->
  AESAlgorithm_check_key key_size (RawBytes k) w
  = (Raise (key_size_required key_size), w).
Proof.
  intros Hne. unfold AESAlgorithm_check_key. run_monad. cbn.
  destruct (Z.eqb_spec (len k * 8) key_size); [contradiction | reflexivity].
Qed.

Lemma check_key_match key_size k w :
  len k * 8 = key_size ->
  AESAlgorithm_check_key key_size (RawBytes k) w = (Return tt, w).
Proof.
  intros Heq. unfold AESAlgorithm_check_key. run_monad. cbn.
  destruct (Z.eqb_spec (len k * 8) key_size); [reflexivity | contradiction].
Qed.

(** Both classes define the same check. *)
Lemma AESGCMAlgorithm_check_key_eq key_size key :
  AESGCMAlgorithm_check_key key_size key = AESAlgorithm_check_key key_size key.
Proof. reflexivity. Qed.

(** C4. For the AES-KW and the AES-GCM-KW classes, [wrap] and [unwrap]
    raise the size error ([KeySizeMismatch]) whenever eight times the byte
    length of the octet key differs from the declared key size, before any
    other step (the state is unchanged). *)
Theorem C4_aes_key_size_mismatch
    (alg : JWEAlgorithm) (key_size : Z) (data : bytes) (headers : headers_t)
    (key : Key) (k : bytes) (w : world) :
  alg = AESAlgorithm key_size \/ alg = AESGCMAlgorithm key_size ->
  len k * 8 <> key_size ->
  (get_op_key key "wrapKey" = Return (RawBytes k) ->
     wrap alg data headers key w = (Raise (key_size_required key_size), w))
  /\
  (get_op_key key "unwrapKey" = Return (RawBytes k) ->
     unwrap alg data headers key w = (Raise (key_size_required key_size), w)).
Proof.
  intros Halg Hne.
  pose proof (check_key_mismatch key_size k w Hne) as Hck.
  pose proof Hck as Hck'. rewrite <- AESGCMAlgorithm_check_key_eq in Hck'.
  destruct Halg as [-> | ->]; split; intros Hk; cbn [wrap unwrap];
    unfold AESAlgorithm_wrap, AESAlgorithm_unwrap,
           AESGCMAlgorithm_wrap, AESGCMAlgorithm_unwrap;
    unfold bind, lift; rewrite Hk; cbv beta iota;
    rewrite ?Hck, ?Hck'; reflexivity.
Qed.

End AESProperties.

(** ** Running the monad step by step *)

Section MonadLemmas.
Context `{Backend}.

Lemma bind_Return {A B} (m : M A) (k : A -> M B) w a w' :
  m w = (Return a, w') -> bind m k w = k a w'.
Proof. intros Hm. unfold bind. by rewrite Hm. Qed.

Lemma bind_Raise {A B} (m : M A) (k : A -> M B) w e w' :
  m w = (Raise e, w') -> bind m k w = (Raise e, w').
Proof. intros Hm. unfold bind. by rewrite Hm. Qed.

Lemma bind_Return_inv {A B} (m : M A) (k : A -> M B) w b w2 :
  bind m k w = (Return b, w2) ->
  exists a w1, m w = (Return a, w1) /\ k a w1 = (Return b, w2).
Proof.
  unfold bind. destruct (m w) as [[a | e] w1]; [eauto | discriminate].
Qed.

Lemma lift_run {A} (r : res A) w : lift r w = (r, w).
Proof. reflexivity. Qed.

Lemma log_run c w : log c w = (Return tt, World (rng w) (calls w ++ [c])).
Proof. reflexivity. Qed.
End MonadLemmas.

(** ** The integrity check *)

Section Integrity.
Context `{Helpers}.

Lemma os_urandom_run n w :
  os_urandom n w
  = (Return (urandom n (rng w)).1,
     World (urandom n (rng w)).2 (calls w ++ [CallUrandom n])).
Proof. unfold os_urandom. by destruct (urandom n (rng w)). Qed.

Lemma Cipher_encryptor_run k iv w :
  Cipher_encryptor (RawBytes k) iv w
  = (gcm_encryptor k iv, World (rng w) (calls w ++ [CallGcmEncryptor])).
Proof. reflexivity. Qed.

Lemma Cipher_decryptor_run k iv tag w :
  Cipher_decryptor (RawBytes k) iv tag w
  = (gcm_decryptor k iv tag, World (rng w) (calls w ++ [CallGcmDecryptor])).
Proof. reflexivity. Qed.

Lemma ctx_update_run ctx data w :
  ctx_update ctx data w
  = (Return (gcm_update ctx data), World (rng w) (calls w ++ [CallGcmUpdate])).
Proof. reflexivity. Qed.

Lemma ctx_finalize_run ctx w :
  ctx_finalize ctx w
  = (gcm_finalize ctx, World (rng w) (calls w ++ [CallGcmFinalize])).
Proof. reflexivity. Qed.

Lemma aes_key_sizes_len (k : bytes) key_size :
  len k * 8 = key_size -> key_size ∈ [128; 192; 256] -> len k ∈ [16; 24; 32].
Proof.
  intros Hsize Hin. rewrite !elem_of_cons, elem_of_nil in *.
  lia.
Qed.

Lemma aes_key_unwrap_rejects k ek w :
  kw_unwrap k ek = None ->
  len k ∈ [16; 24; 32] ->
  exists w', aes_key_unwrap (RawBytes k) ek w = (Raise InvalidUnwrap, w').
Proof.
  intros Hnone Hk. unfold aes_key_unwrap.
  destruct (len ek <? 24); [by eexists |].
  destruct (negb (len ek mod 8 =? 0)); [by eexists |].
  rewrite (bind_Return _ _ w k w) by reflexivity.
  rewrite bool_decide_true by exact Hk. cbn [negb].
  rewrite (bind_Return _ _ _ tt _) by apply log_run.
  rewrite Hnone. by eexists.
Qed.

Lemma AESAlgorithm_unwrap_rejects key_size ek headers key k w :
  get_op_key key "unwrapKey" = Return (RawBytes k) ->
  len k * 8 = key_size ->
  key_size ∈ [128; 192; 256] ->
  kw_unwrap k ek = None ->
  exists w', AESAlgorithm_unwrap key_size ek headers key w
             = (Raise InvalidUnwrap, w').
Proof.
  intros Hk Hsize Hin Hnone. unfold AESAlgorithm_unwrap.
  rewrite (bind_Return _ _ w (RawBytes k) w) by (by rewrite lift_run, Hk).
  rewrite (bind_Return _ _ w tt w) by (by apply check_key_match).
  destruct (aes_key_unwrap_rejects k ek w Hnone) as [w' Hw'].
  { by apply aes_key_sizes_len with key_size. }
  exists w'. by apply bind_Raise.
Qed.

Lemma AESGCMAlgorithm_unwrap_rejects
    key_size ek headers key k iv tag iv_b tag_b d e w :
  get_op_key key "unwrapKey" = Return (RawBytes k) ->
  len k * 8 = key_size ->
  headers !! "iv" = Some iv -> iv <> "" ->
  headers !! "tag" = Some tag -> tag <> "" ->
  urlsafe_b64decode (to_bytes iv) = Return iv_b ->
  urlsafe_b64decode (to_bytes tag) = Return tag_b ->
  gcm_decryptor k iv_b tag_b = Return d ->
  gcm_finalize (gcm_update d ek).1 = Raise e ->
  exists w', AESGCMAlgorithm_unwrap key_size ek headers key w = (Raise e, w').
Proof.
  intros Hk Hsize Hiv Hivne Htag Htagne Hdiv Hdtag Hdec Hfin.
  unfold AESGCMAlgorithm_unwrap.
  rewrite (bind_Return _ _ w (RawBytes k) w) by (by rewrite lift_run, Hk).
  rewrite (bind_Return _ _ w tt w) by (by apply check_key_match).
  rewrite Hiv, Htag. cbn [falsy from_option id].
  rewrite !bool_decide_false by assumption.
  rewrite (bind_Return _ _ w iv_b w) by (by rewrite lift_run, Hdiv).
  rewrite (bind_Return _ _ w tag_b w) by (by rewrite lift_run, Hdtag).
  erewrite (bind_Return _ _ _ d)
    by (rewrite Cipher_decryptor_run, Hdec; reflexivity).
  erewrite (bind_Return _ _ _ (gcm_update d ek)) by apply ctx_update_run.
  eexists. apply bind_Raise.
  rewrite ctx_finalize_run. cbn [fst]. rewrite Hfin. reflexivity.
Qed.

(** A CEK that AES-KW [unwrap] returns is the one the RFC 3394 transform
    released after its check. *)
Lemma AESAlgorithm_unwrap_Return key_size ek headers key cek w w' :
  AESAlgorithm_unwrap key_size ek headers key w = (Return cek, w') ->
  exists k, get_op_key key "unwrapKey" = Return (RawBytes k) /\
            kw_unwrap k ek = Some cek.
Proof.
  unfold AESAlgorithm_unwrap. intros Hrun.
  apply bind_Return_inv in Hrun as (op_key & w1 & Hop & Hrun).
  apply bind_Return_inv in Hrun as ([] & w2 & Hck & Hrun).
  apply bind_Return_inv in Hrun as (cek' & w3 & Hun & Hrun).
  injection Hrun as -> ->. rewrite lift_run in Hop. injection Hop as Hop ->.
  unfold aes_key_unwrap in Hun.
  destruct (len ek <? 24); [discriminate |].
  destruct (negb (len ek mod 8 =? 0)); [discriminate |].
  apply bind_Return_inv in Hun as (k & w4 & Hk & Hun).
  destruct op_key as [rk | b]; [discriminate |].
  injection Hk as -> ->.
  destruct (negb (bool_decide (len k ∈ [16; 24; 32]))); [discriminate |].
  apply bind_Return_inv in Hun as ([] & w5 & _ & Hun).
  destruct (kw_unwrap k ek) as [r |] eqn:Hr; [| discriminate].
  injection Hun as -> _. eauto.
Qed.

(** A CEK that AES-GCM [unwrap] returns is the plaintext of a decryptor
    whose [finalize] verified the tag from the headers. *)
Lemma AESGCMAlgorithm_unwrap_Return key_size ek headers key cek w w' :
  AESGCMAlgorithm_unwrap key_size ek headers key w = (Return cek, w') ->
  exists k iv tag iv_b tag_b d f,
    get_op_key key "unwrapKey" = Return (RawBytes k) /\
    headers !! "iv" = Some iv /\ headers !! "tag" = Some tag /\
    urlsafe_b64decode (to_bytes iv) = Return iv_b /\
    urlsafe_b64decode (to_bytes tag) = Return tag_b /\
    gcm_decryptor k iv_b tag_b = Return d /\
    gcm_finalize (gcm_update d ek).1 = Return f /\
    cek = (gcm_update d ek).2 ++ f.2.
Proof.
  unfold AESGCMAlgorithm_unwrap. intros Hrun.
  apply bind_Return_inv in Hrun as (op_key & w1 & Hop & Hrun).
  apply bind_Return_inv in Hrun as ([] & w2 & Hck & Hrun).
  rewrite lift_run in Hop. injection Hop as Hop ->.
  destruct (headers !! "iv") as [iv |] eqn:Hiv; [| discriminate].
  destruct (falsy (Some iv)); [discriminate |].
  destruct (headers !! "tag") as [tag |] eqn:Htag; [| discriminate].
  destruct (falsy (Some tag)); [discriminate |]. cbn [from_option id] in Hrun.
  apply bind_Return_inv in Hrun as (iv_b & w3 & Hdiv & Hrun).
  apply bind_Return_inv in Hrun as (tag_b & w4 & Hdtag & Hrun).
  apply bind_Return_inv in Hrun as (d & w5 & Hdec & Hrun).
  apply bind_Return_inv in Hrun as (u & w6 & Hupd & Hrun).
  apply bind_Return_inv in Hrun as (f & w7 & Hfin & Hrun).
  rewrite lift_run in Hdiv, Hdtag.
  injection Hdiv as Hdiv ->. injection Hdtag as Hdtag ->.
  injection Hrun as <- _.
  unfold Cipher_decryptor in Hdec.
  apply bind_Return_inv in Hdec as (k & w8 & Hk & Hdec).
  destruct op_key as [rk | b]; [discriminate |]. injection Hk as -> ->.
  apply bind_Return_inv in Hdec as ([] & w9 & _ & Hdec).
  rewrite lift_run in Hdec. injection Hdec as Hdec _.
  unfold ctx_update in Hupd.
  apply bind_Return_inv in Hupd as ([] & w10 & _ & Hupd).
  injection Hupd as <- _.
  unfold ctx_finalize in Hfin.
  apply bind_Return_inv in Hfin as ([] & w11 & _ & Hfin).
  rewrite lift_run in Hfin. injection Hfin as Hfin _.
  exists k, iv, tag, iv_b, tag_b, d, f. auto 10.
Qed.

(** C7. When the integrity check does not pass, [unwrap] raises and
    returns nothing: for AES-KW, when the RFC 3394 check rejects the
    wrapped key, [InvalidUnwrap]; for AES-GCM, when [finalize] does not
    verify the tag, [InvalidTag], and the bytes that [update] had already
    decrypted are dropped with the exception. *)
Theorem C7_unwrap_fails_on_integrity_failure :
  (forall key_size ek (headers : headers_t) (key : Key) k (w : world),
     get_op_key key "unwrapKey" = Return (RawBytes k) ->
     len k * 8 = key_size ->
     key_size ∈ [128; 192; 256] ->
     kw_unwrap k ek = None ->
     exists w', unwrap (AESAlgorithm key_size) ek headers key w
                = (Raise InvalidUnwrap, w'))
  /\
  (forall key_size ek (headers : headers_t) (key : Key)
          k iv tag iv_b tag_b d (w : world),
     get_op_key key "unwrapKey" = Return (RawBytes k) ->
     len k * 8 = key_size ->
     headers !! "iv" = Some iv -> iv <> "" ->
     headers !! "tag" = Some tag -> tag <> "" ->
     urlsafe_b64decode (to_bytes iv) = Return iv_b ->
     urlsafe_b64decode (to_bytes tag) = Return tag_b ->
     gcm_decryptor k iv_b tag_b = Return d ->
     gcm_finalize (gcm_update d ek).1 = Raise InvalidTag ->
     exists w', unwrap (AESGCMAlgorithm key_size) ek headers key w
                = (Raise InvalidTag, w')).
Proof.
  split.
  - intros key_size ek headers key k w Hk Hsize Hin Hnone.
    destruct (AESAlgorithm_unwrap_rejects key_size ek headers key k w)
      as [w' Hw']; try assumption.
    exists w'. cbn [unwrap]. by apply bind_Raise.
  - intros key_size ek headers key k iv tag iv_b tag_b d w
      Hk Hsize Hiv Hivne Htag Htagne Hdiv Hdtag Hdec Hfin.
    destruct (AESGCMAlgorithm_unwrap_rejects key_size ek headers key
                k iv tag iv_b tag_b d InvalidTag w) as [w' Hw']; try assumption.
    exists w'. cbn [unwrap]. by apply bind_Raise.
Qed.
End Integrity.

(** ** What [wrap] returns *)

Section Shape.
Context `{Helpers}.

Lemma RSAAlgorithm_wrap_Return pad cek headers key w r w' :
  RSAAlgorithm_wrap pad cek headers key w = (Return r, w') ->
  exists ek, r = WBytes ek.
Proof.
  unfold RSAAlgorithm_wrap. intros Hrun.
  apply bind_Return_inv in Hrun as (op_key & w1 & _ & Hrun).
  apply bind_Return_inv in Hrun as (key_size & w2 & _ & Hrun).
  destruct (key_size <? RSAAlgorithm_key_size); [discriminate |].
  apply bind_Return_inv in Hrun as (ek & w3 & _ & Hrun).
  injection Hrun as <- _. eauto.
Qed.

Lemma AESAlgorithm_wrap_Return key_size cek headers key w r w' :
  AESAlgorithm_wrap key_size cek headers key w = (Return r, w') ->
  exists ek, r = WBytes ek.
Proof.
  unfold AESAlgorithm_wrap. intros Hrun.
  apply bind_Return_inv in Hrun as (op_key & w1 & _ & Hrun).
  apply bind_Return_inv in Hrun as ([] & w2 & _ & Hrun).
  apply bind_Return_inv in Hrun as (ek & w3 & _ & Hrun).
  injection Hrun as <- _. eauto.
Qed.

Lemma AESGCMAlgorithm_wrap_Return key_size cek headers key w r w' :
  AESGCMAlgorithm_wrap key_size cek headers key w = (Return r, w') ->
  exists ek h, r = WDict ek h /\ dom h = EXTRA_HEADERS.
Proof.
  unfold AESGCMAlgorithm_wrap. intros Hrun.
  apply bind_Return_inv in Hrun as (op_key & w1 & _ & Hrun).
  apply bind_Return_inv in Hrun as ([] & w2 & _ & Hrun).
  apply bind_Return_inv in Hrun as (iv & w3 & _ & Hrun).
  apply bind_Return_inv in Hrun as (enc & w4 & _ & Hrun).
  apply bind_Return_inv in Hrun as (u & w5 & _ & Hrun).
  apply bind_Return_inv in Hrun as (f & w6 & _ & Hrun).
  injection Hrun as <- _. do 2 eexists. split; [reflexivity |].
  unfold EXTRA_HEADERS. rewrite dom_insert_L, dom_singleton_L. reflexivity.
Qed.

(** Each AES-GCM [wrap] asks the random source for 12 bytes, before any
    call to the cipher, and the [iv] header is the encoding of those
    bytes. Whether two draws differ is a matter of the source. *)
Lemma AESGCMAlgorithm_wrap_draws_iv key_size cek headers key w ek h w' :
  AESGCMAlgorithm_wrap key_size cek headers key w = (Return (WDict ek h), w') ->
  h !! "iv" = Some (to_native (urlsafe_b64encode (urandom 12 (rng w)).1)) /\
  exists cs, calls w' = calls w ++ CallUrandom 12 :: cs.
Proof.
  unfold AESGCMAlgorithm_wrap. intros Hrun.
  apply bind_Return_inv in Hrun as (op_key & w1 & Hop & Hrun).
  apply bind_Return_inv in Hrun as ([] & w2 & Hck & Hrun).
  rewrite lift_run in Hop. injection Hop as _ <-.
  unfold AESGCMAlgorithm_check_key in Hck.
  apply bind_Return_inv in Hck as (len_k & w3 & Hlen & Hck).
  rewrite lift_run in Hlen. injection Hlen as _ <-.
  destruct (negb (len_k * 8 =? key_size)); [discriminate |].
  injection Hck as <-.
  change (Z.to_nat (96 / 8)) with 12%nat in Hrun.
  apply bind_Return_inv in Hrun as (iv & w4 & Hiv & Hrun).
  rewrite os_urandom_run in Hiv. injection Hiv as <- <-.
  apply bind_Return_inv in Hrun as (enc & w5 & Henc & Hrun).
  apply bind_Return_inv in Hrun as (u & w6 & Hupd & Hrun).
  apply bind_Return_inv in Hrun as (f & w7 & Hfin & Hrun).
  injection Hrun as <- <- <-.
  split; [apply lookup_insert_eq |].
  unfold Cipher_encryptor in Henc.
  apply bind_Return_inv in Henc as (k & w8 & Hk & Henc).
  destruct op_key as [rk | b]; [discriminate |]. injection Hk as _ <-.
  apply bind_Return_inv in Henc as ([] & w9 & Hlog & Henc).
  rewrite log_run in Hlog. injection Hlog as <-.
  rewrite lift_run in Henc. injection Henc as _ <-.
  rewrite ctx_update_run in Hupd. injection Hupd as _ <-.
  rewrite ctx_finalize_run in Hfin. injection Hfin as _ <-.
  cbn [calls rng]. rewrite <- !app_assoc. by eexists.
Qed.

(** C9, amended. [wrap] of an RSA or an AES-KW instance returns the bytes
    [ek] alone, with no header mapping; [wrap] of an AES-GCM instance
    returns [ek] together with a header mapping whose fields are [iv] and
    [tag]. *)
Theorem C9_wrap_result_shape
    (alg : JWEAlgorithm) (cek : bytes) (headers : headers_t) (key : Key)
    (w w' : world) (r : wrapped) :
  wrap alg cek headers key w = (Return r, w') ->
  match alg with
  | RSAAlgorithm _ _ _ | AESAlgorithm _ => exists ek, r = WBytes ek
  | AESGCMAlgorithm _ => exists ek h, r = WDict ek h /\ dom h = {[ "iv"; "tag" ]}
  | ECDHAlgorithm _ => r = WNone
  end.
Proof.
  destruct alg as [nm ds pad | ks | ks | ks]; cbn [wrap]; intros Hrun.
  - by eapply RSAAlgorithm_wrap_Return.
  - by eapply AESAlgorithm_wrap_Return.
  - by eapply AESGCMAlgorithm_wrap_Return.
  - by injection Hrun as <- _.
Qed.
End Shape.

(** ** The identity of [wrap] and [unwrap] *)

Section RoundTrip.
Context `{Helpers} {laws : Laws}.

Lemma RSA_round_trip nm ds pad key cek w :
  padding_overhead pad <= 66 ->
  valid_key (RSAAlgorithm nm ds pad) key ->
  len cek <= 64 ->
  exists r w1 w2,
    wrap (RSAAlgorithm nm ds pad) cek ∅ key w = (Return r, w1) /\
    unwrap_wrapped (RSAAlgorithm nm ds pad) r ∅ key w1 = (Return (Some cek), w2).
Proof.
  intros Hpad (sk & Hpriv & Hwk & Huk & Hsize) Hlen.
  unfold RSAAlgorithm_key_size in Hsize.
  destruct (rsa_round_trip sk cek pad (rng w) Hpriv) as (c & e' & Henc & Hdec).
  { assert (256 <= rsa_key_size sk / 8) by (apply Z.div_le_lower_bound; lia).
    lia. }
  cbn [wrap].
  rewrite (RSAAlgorithm_wrap_large pad cek ∅ key _ w Hwk)
    by (rewrite rsa_public_key_size; lia).
  rewrite Henc. cbn [fst snd res_map res_bind].
  do 3 eexists. split; [reflexivity |].
  cbn [unwrap_wrapped unwrap].
  erewrite bind_Return
    by (rewrite (RSAAlgorithm_unwrap_decrypts pad c ∅ key sk _ Huk), Hdec;
        reflexivity).
  reflexivity.
Qed.

Lemma aes_key_wrap_run k cek w :
  len k ∈ [16; 24; 32] -> 16 <= len cek -> len cek mod 8 = 0 ->
  aes_key_wrap (RawBytes k) cek w
  = (Return (kw_wrap k cek), World (rng w) (calls w ++ [CallKeyWrap])).
Proof.
  intros Hk Hlen Hmod. unfold aes_key_wrap.
  rewrite (bind_Return _ _ w k w) by reflexivity.
  rewrite bool_decide_true by exact Hk. cbn [negb].
  destruct (Z.ltb_spec (len cek) 16); [lia |].
  rewrite Hmod. reflexivity.
Qed.

Lemma aes_key_unwrap_run k cek w :
  len k ∈ [16; 24; 32] -> 16 <= len cek -> len cek mod 8 = 0 ->
  aes_key_unwrap (RawBytes k) (kw_wrap k cek) w
  = (Return cek, World (rng w) (calls w ++ [CallKeyUnwrap])).
Proof.
  intros Hk Hlen Hmod. unfold aes_key_unwrap.
  destruct (kw_round_trip k cek Hk Hlen Hmod) as [Hinv Hlenw].
  rewrite Hlenw.
  destruct (Z.ltb_spec (len cek + 8) 24); [lia |].
  replace ((len cek + 8) mod 8) with 0 by (Z.div_mod_to_equations; lia).
  cbn [Z.eqb negb].
  rewrite (bind_Return _ _ w k w) by reflexivity.
  rewrite bool_decide_true by exact Hk. cbn [negb].
  rewrite (bind_Return _ _ _ tt _) by apply log_run.
  rewrite Hinv. reflexivity.
Qed.

Lemma AES_round_trip key_size key cek w :
  key_size ∈ [128; 192; 256] ->
  valid_key (AESAlgorithm key_size) key ->
  16 <= len cek -> len cek mod 8 = 0 ->
  exists r w1 w2,
    wrap (AESAlgorithm key_size) cek ∅ key w = (Return r, w1) /\
    unwrap_wrapped (AESAlgorithm key_size) r ∅ key w1 = (Return (Some cek), w2).
Proof.
  intros Hin (k & Hwk & Huk & Hsize) Hlen Hmod.
  pose proof (aes_key_sizes_len k key_size Hsize Hin) as Hk.
  cbn [wrap]. unfold AESAlgorithm_wrap.
  rewrite (bind_Return _ _ w (RawBytes k) w) by (by rewrite lift_run, Hwk).
  rewrite (bind_Return _ _ w tt w) by (by apply check_key_match).
  erewrite bind_Return by (by apply aes_key_wrap_run).
  do 3 eexists. split; [reflexivity |].
  cbn [unwrap_wrapped unwrap]. unfold AESAlgorithm_unwrap.
  erewrite bind_Return; [reflexivity |].
  erewrite (bind_Return _ _ _ (RawBytes k)) by (by rewrite lift_run, Huk).
  erewrite (bind_Return _ _ _ tt) by (by apply check_key_match).
  erewrite bind_Return by (by apply aes_key_unwrap_run).
  reflexivity.
Qed.

Lemma header_lookup_iv (a b : string) :
  ({[ "iv" := a; "tag" := b ]} : gmap string string) !! "iv" = Some a.
Proof. apply lookup_insert_eq. Qed.

Lemma header_lookup_tag (a b : string) :
  ({[ "iv" := a; "tag" := b ]} : gmap string string) !! "tag" = Some b.
Proof. rewrite lookup_insert_ne by discriminate. apply lookup_singleton_eq. Qed.

Lemma GCM_round_trip key_size key cek w :
  key_size ∈ [128; 192; 256] ->
  valid_key (AESGCMAlgorithm key_size) key ->
  exists r w1 w2,
    wrap (AESGCMAlgorithm key_size) cek ∅ key w = (Return r, w1) /\
    unwrap_wrapped (AESGCMAlgorithm key_size) r ∅ key w1
    = (Return (Some cek), w2).
Proof.
  intros Hin (k & Hwk & Huk & Hsize).
  pose proof (aes_key_sizes_len k key_size Hsize Hin) as Hk.
  pose proof (check_key_match key_size k) as Hck.
  rewrite <- AESGCMAlgorithm_check_key_eq in Hck.
  set (iv := (urandom 12 (rng w)).1).
  assert (Hiv : len iv = 12).
  { unfold len, iv. rewrite urandom_length. reflexivity. }
  destruct (gcm_round_trip k iv cek Hk Hiv)
    as (enc & f & d & g & Henc & Hfin & Htag & Hdec & Hfin' & Hcek).
  cbn [wrap]. unfold AESGCMAlgorithm_wrap.
  rewrite (bind_Return _ _ w (RawBytes k) w) by (by rewrite lift_run, Hwk).
  rewrite (bind_Return _ _ w tt w) by (by apply Hck).
  change (Z.to_nat (96 / 8)) with 12%nat.
  erewrite (bind_Return _ _ _ iv) by apply os_urandom_run.
  erewrite (bind_Return _ _ _ enc)
    by (rewrite Cipher_encryptor_run, Henc; reflexivity).
  erewrite (bind_Return _ _ _ (gcm_update enc cek)) by apply ctx_update_run.
  erewrite (bind_Return _ _ _ f)
    by (rewrite ctx_finalize_run, Hfin; reflexivity).
  do 3 eexists. split; [reflexivity |].
  cbn [unwrap_wrapped unwrap]. unfold AESGCMAlgorithm_unwrap.
  erewrite bind_Return; [reflexivity |].
  erewrite (bind_Return _ _ _ (RawBytes k)) by (by rewrite lift_run, Huk).
  erewrite (bind_Return _ _ _ tt) by (by apply Hck).
  rewrite (right_id_L ∅ (∪)).
  rewrite !header_lookup_iv, !header_lookup_tag.
  cbn [falsy from_option id].
  rewrite !bool_decide_false.
  2:{ apply b64_nonempty. exact Htag. }
  2:{ apply b64_nonempty. intros Hnil. rewrite Hnil in Hiv. discriminate. }
  erewrite (bind_Return _ _ _ iv) by (by rewrite lift_run, b64_round_trip).
  erewrite (bind_Return _ _ _ (gcm_tag f.1))
    by (by rewrite lift_run, b64_round_trip).
  erewrite (bind_Return _ _ _ d)
    by (rewrite Cipher_decryptor_run, Hdec; reflexivity).
  erewrite (bind_Return _ _ _ (gcm_update d _)) by apply ctx_update_run.
  erewrite (bind_Return _ _ _ g)
    by (rewrite ctx_finalize_run, Hfin'; reflexivity).
  unfold ret. rewrite Hcek. reflexivity.
Qed.

(** C2, amended. For each of the nine algorithms of the list, each key
    valid for it and each CEK of 16 to 64 bytes, whose length is moreover
    a multiple of 8 when the algorithm is one of A128KW, A192KW and A256KW,
    [unwrap] applied to what [wrap(cek, {}, key)] returns, with the header
    fields [wrap] produced, returns [cek]. *)
Theorem C2_wrap_unwrap_identity
    (alg : JWEAlgorithm) (key : Key) (cek : bytes) (w : world) :
  alg ∈ JWE_ALG_ALGORITHMS ->
  valid_key alg key ->
  16 <= len cek <= 64 ->
  (is_AESKW alg = true -> len cek mod 8 = 0) ->
  wrap_unwrap_identity alg key cek w.
Proof.
  intros Halg Hkey [Hlo Hhi] Hmod. unfold wrap_unwrap_identity.
  unfold JWE_ALG_ALGORITHMS in Halg.
  rewrite !elem_of_cons, elem_of_nil in Halg.
  destruct Halg
    as [-> | [-> | [-> | [-> | [-> | [-> | [-> | [-> | [-> | []]]]]]]]]].
  1-3: apply RSA_round_trip; [cbn; lia | assumption | assumption].
  1-3: apply AES_round_trip;
         [repeat constructor | assumption | assumption | by apply Hmod].
  all: apply GCM_round_trip; [repeat constructor | assumption].
Qed.
End RoundTrip.

(** ** The small backend satisfies the laws *)

Module ToyLaws.
Import Toy.

Lemma mask_mask b : mask (mask b) = b.
Proof. destruct b; reflexivity. Qed.

Lemma mask_mask_list (l : bytes) : mask <$> (mask <$> l) = l.
Proof.
  induction l as [| b l IH]; [reflexivity |].
  cbn [fmap list_fmap] in *. by rewrite mask_mask, IH.
Qed.

Lemma toy_tag_length p : length (toy_tag p) = 16%nat.
Proof.
  unfold toy_tag. rewrite length_take, length_app, length_replicate. lia.
Qed.

Lemma toy_tag_nonempty p : toy_tag p <> [].
Proof.
  intros Hnil. pose proof (toy_tag_length p) as Hlen.
  rewrite Hnil in Hlen. discriminate.
Qed.

#[export] Instance laws : Laws.
Proof.
  split.
  - intros n e. cbn. by rewrite length_fmap, length_seq.
  - reflexivity.
  - intros [b priv] m pad e Hpriv Hfit. cbn in *. subst priv.
    destruct (Z.ltb_spec (b / 8) (len m + padding_overhead pad)); [lia |].
    do 2 eexists. split; [reflexivity |]. f_equal. apply mask_mask_list.
  - intros k m _ _ _. cbn. split.
    + rewrite bool_decide_true by reflexivity. f_equal. apply mask_mask_list.
    + unfold len. cbn [length]. rewrite length_fmap. lia.
  - intros k iv m Hk _.
    assert (Hlen : (len (toy_tag m) <? 16) = false).
    { unfold len. rewrite toy_tag_length. reflexivity. }
    exists (ToyCtx None []), (ToyCtx None m, []),
           (ToyCtx (Some (toy_tag m)) []),
           (ToyCtx (Some (toy_tag m)) m, []).
    cbn [gcm_encryptor gcm_decryptor gcm_update gcm_finalize gcm_tag backend
         expect seen fst snd app].
    rewrite !bool_decide_true by exact Hk. rewrite Hlen.
    cbn [expect seen fst snd app]. rewrite !app_nil_r.
    assert (Hmm : mask <$> (mask <$> m) = m) by apply mask_mask_list.
    rewrite Hmm. cbn [expect seen].
    rewrite bool_decide_true by reflexivity.
    repeat split; auto using toy_tag_nonempty.
  - intros b. cbn [urlsafe_b64decode urlsafe_b64encode to_bytes to_native helpers].
    f_equal. apply String.list_byte_of_string_of_list_byte.
  - intros [| x b] Hne; [contradiction | discriminate].
Qed.
End ToyLaws.

(** ** The list of algorithms and the registry *)

Section Registry.

Lemma JWE_ALG_ALGORITHMS_names :
  name <$> JWE_ALG_ALGORITHMS
  = ["RSA1_5"; "RSA-OAEP"; "RSA-OAEP-256"; "A128KW"; "A192KW"; "A256KW";
     "A128GCMKW"; "A192GCMKW"; "A256GCMKW"].
Proof. reflexivity. Qed.

Lemma registry_dom :
  dom registry = list_to_set (name <$> JWE_ALG_ALGORITHMS).
Proof. vm_compute. reflexivity. Qed.

(** The classes give the reserved names to their instances, but no
    instance of [ECDHAlgorithm] is in the list. *)
Lemma ECDHAlgorithm_names :
  name <$> [ECDHAlgorithm None; ECDHAlgorithm (Some 128);
            ECDHAlgorithm (Some 192); ECDHAlgorithm (Some 256)]
  = reserved_names.
Proof. reflexivity. Qed.

(** C8, amended. The keys of the registry are exactly the nine names
    RSA1_5, RSA-OAEP, RSA-OAEP-256, A128KW, A192KW, A256KW, A128GCMKW,
    A192GCMKW and A256GCMKW, each resolving to its instance of the list;
    none of the four ECDH-ES names is a key: their lookup fails. *)
Theorem C8_registry_keys :
  (forall alg_name,
     is_Some (resolve_algorithm alg_name) <->
     alg_name ∈ ["RSA1_5"; "RSA-OAEP"; "RSA-OAEP-256";
                 "A128KW"; "A192KW"; "A256KW";
                 "A128GCMKW"; "A192GCMKW"; "A256GCMKW"])
  /\
  (forall alg, alg ∈ JWE_ALG_ALGORITHMS ->
     resolve_algorithm (name alg) = Some alg)
  /\
  (forall alg_name, alg_name ∈ reserved_names ->
     resolve_algorithm alg_name = None).
Proof.
  split; [| split].
  - intros alg_name. unfold resolve_algorithm.
    rewrite <- elem_of_dom, registry_dom, elem_of_list_to_set.
    by rewrite JWE_ALG_ALGORITHMS_names.
  - intros alg Halg. unfold JWE_ALG_ALGORITHMS in Halg.
    rewrite !elem_of_cons, elem_of_nil in Halg.
    destruct Halg
      as [-> | [-> | [-> | [-> | [-> | [-> | [-> | [-> | [-> | []]]]]]]]]];
      vm_compute; reflexivity.
  - intros alg_name Hin. unfold reserved_names in Hin.
    rewrite !elem_of_cons, elem_of_nil in Hin.
    destruct Hin as [-> | [-> | [-> | [-> | []]]]]; vm_compute; reflexivity.
Qed.

Lemma C8_witness :
  AESAlgorithm 128 ∈ JWE_ALG_ALGORITHMS /\
  "ECDH-ES" ∈ reserved_names /\
  resolve_algorithm (name (AESAlgorithm 128)) = Some (AESAlgorithm 128) /\
  resolve_algorithm "ECDH-ES" = None.
Proof.
  assert (Hin : AESAlgorithm 128 ∈ JWE_ALG_ALGORITHMS) by repeat constructor.
  assert (Hres : "ECDH-ES" ∈ reserved_names) by repeat constructor.
  split; [exact Hin |]. split; [exact Hres |]. split.
  - exact (proj1 (proj2 C8_registry_keys) (AESAlgorithm 128) Hin).
  - exact (proj2 (proj2 C8_registry_keys) "ECDH-ES" Hres).
Defined.

(** C8 as the spec states it fails at the name ECDH-ES: the spec lists
    it as a key, and its lookup misses. *)
Lemma C8_counterexample :
  "ECDH-ES" ∈ spec_algorithm_names /\ resolve_algorithm "ECDH-ES" = None.
Proof. split; [repeat constructor | vm_compute; reflexivity]. Qed.
End Registry.

(** ** The RSA branch of the key codec *)

Module JWKFacts.
Import JWK.

(** The model passes the tests of the repository on the small key. *)
Example passes_test_rsa_private_key :
  test_rsa_private_key (load_rsa rsa_recover_prime_factors) dump_rsa
    small_private_key = true.
Proof. vm_compute. reflexivity. Qed.

Example passes_test_rsa_private_key2 :
  test_rsa_private_key2 (load_rsa rsa_recover_prime_factors) dump_rsa
    small_private_key = true.
Proof. vm_compute. reflexivity. Qed.

Example passes_test_invalid_rsa :
  test_invalid_rsa (load_rsa rsa_recover_prime_factors)
    small_private_key = true.
Proof. vm_compute. reflexivity. Qed.

(** The document that [test_rsa_private_key2] loads has [d] and neither
    [p] nor [q]. *)
Lemma test2_document_fields (key_n : field) (dv : Z) :
  let obj : document :=
    {[ "kty" := Str "RSA";
       "kid" := Str "bilbo.baggins@hobbiton.example";
       "use" := Str "sig";
       "n" := key_n; "d" := Int dv; "e" := Int 65537 ]} in
  get_int obj "d" = Some dv /\ get_int obj "p" = None /\ get_int obj "q" = None.
Proof.
  cbv zeta. unfold get_int.
  repeat split; by simplify_map_eq.
Qed.

(** No codec that rejects every document with [d] and without [p] and [q]
    passes [test_rsa_private_key2]. *)
Lemma rejecting_d_only_fails_test2
    (loads : document -> loaded) (dumps : RSAKey -> string -> option document)
    (RSA_PRIVATE_KEY : document) :
  (forall obj, is_Some (get_int obj "d") ->
               get_int obj "p" = None -> get_int obj "q" = None ->
               loads obj = Failed IncompleteKey) ->
  is_Some (get_int RSA_PRIVATE_KEY "d") ->
  test_rsa_private_key2 loads dumps RSA_PRIVATE_KEY = false.
Proof.
  intros Hclaim [dv Hd]. unfold test_rsa_private_key2.
  unfold get_int in Hd.
  destruct (RSA_PRIVATE_KEY !! "n") as [key_n |]; [| reflexivity].
  destruct (RSA_PRIVATE_KEY !! "d") as [[s | z] |]; try discriminate.
  injection Hd as ->.
  destruct (test2_document_fields key_n dv) as (Hhasd & Hnop & Hnoq).
  cbv zeta in *.
  rewrite Hclaim by (first [assumption | rewrite Hhasd; by eexists]).
  reflexivity.
Qed.


(** With [d] and only one of [p] and [q] the document is rejected. *)
Lemma load_rsa_one_prime recover (obj : document) nv ev dv :
  obj !! "kty" = Some (Str "RSA") ->
  get_int obj "n" = Some nv -> get_int obj "e" = Some ev ->
  get_int obj "d" = Some dv ->
  is_Some (get_int obj "p") -> get_int obj "q" = None ->
  load_rsa recover obj = Failed IncompleteKey.
Proof.
  intros Hkty Hn He Hd [pv Hp] Hq. unfold load_rsa.
  rewrite Hkty, Hn, He, Hd, Hp, Hq.
  rewrite bool_decide_true by reflexivity. reflexivity.
Qed.



End JWKFacts.

(** ** The properties on the small backend *)

Module Witnesses.
Import Toy ToyLaws.

Lemma C3_witness :
  get_op_key (rsa_private 1024) "wrapKey" = Return (RawRSA (public_half 1024)) /\
  rsa_key_size (public_half 1024) < 2048 /\
  wrap RSA1_5 cek16 ∅ (rsa_private 1024) w0
  = (Raise (ValueError "A key of size 2048 bits or larger MUST be used"), w0).
Proof.
  split; [reflexivity |]. split; [reflexivity |].
  apply (C3_rsa_wrap_enforces_2048_floor "RSA1_5" "RSAES-PKCS1-v1_5" PKCS1v15
           cek16 ∅ (rsa_private 1024) (public_half 1024) w0);
    reflexivity.
Defined.

Lemma C10_witness :
  get_op_key (rsa_private 1024) "unwrapKey" = Return (RawRSA (private_half 1024)) /\
  unwrap RSA1_5 (mask <$> cek16) ∅ (rsa_private 1024) w0
  = (Return (Some cek16), World (7%nat : entropy) [CallDecrypt]).
Proof.
  split; [reflexivity |].
  etransitivity.
  - apply (proj1 (C10_rsa_unwrap_has_no_size_check
                    "RSA1_5" "RSAES-PKCS1-v1_5" PKCS1v15
                    (mask <$> cek16) ∅ (rsa_private 1024) (private_half 1024)
                    w0 eq_refl)).
  - vm_compute. reflexivity.
Defined.

Lemma C4_witness :
  get_op_key (oct key15) "wrapKey" = Return (RawBytes key15) /\
  len key15 * 8 <> 128 /\
  wrap (AESAlgorithm 128) cek16 ∅ (oct key15) w0
  = (Raise (ValueError "A key of size 128 bits is required."), w0).
Proof.
  split; [reflexivity |]. split; [discriminate |].
  apply (proj1 (C4_aes_key_size_mismatch (AESAlgorithm 128) 128 cek16 ∅
                  (oct key15) key15 w0 (or_introl eq_refl)
                  ltac:(discriminate)) eq_refl).
Defined.


Lemma C7_witness :
  get_op_key (oct key16) "unwrapKey" = Return (RawBytes key16) /\
  len key16 * 8 = 128 /\
  kw_unwrap key16 ek_bad = None /\
  exists w', unwrap (AESAlgorithm 128) ek_bad ∅ (oct key16) w0
             = (Raise InvalidUnwrap, w').
Proof.
  split; [reflexivity |]. split; [reflexivity |].
  split; [vm_compute; reflexivity |].
  apply (proj1 C7_unwrap_fails_on_integrity_failure
           128 ek_bad ∅ (oct key16) key16 w0 eq_refl eq_refl).
  - repeat constructor.
  - vm_compute. reflexivity.
Defined.

Lemma C9_witness :
  wrap RSA1_5 cek16 ∅ (rsa_private 2048) w0
  = (Return (WBytes (mask <$> cek16)), World (7%nat : entropy) [CallEncrypt]) /\
  exists ek, WBytes (mask <$> cek16) = WBytes ek.
Proof.
  assert (Hrun : wrap RSA1_5 cek16 ∅ (rsa_private 2048) w0
                 = (Return (WBytes (mask <$> cek16)),
                    World (7%nat : entropy) [CallEncrypt]))
    by (vm_compute; reflexivity).
  split; [exact Hrun |].
  exact (C9_wrap_result_shape RSA1_5 _ _ _ _ _ _ Hrun).
Defined.

(** C9 as the spec states it fails for RSA1_5 on a 2048-bit key: [wrap]
    returns the bytes [ek], not a structure with a header mapping. *)
Lemma C9_counterexample :
  (wrap RSA1_5 cek16 ∅ (rsa_private 2048) w0).1 = Return (WBytes (mask <$> cek16)) /\
  ~ returns_ek_with_headers RSA1_5 (wrap RSA1_5 cek16 ∅ (rsa_private 2048) w0).1.
Proof.
  split; [vm_compute; reflexivity |].
  intros (ek & h & Hr & _). vm_compute in Hr. discriminate.
Qed.

Lemma C2_witness :
  AESGCMAlgorithm 128 ∈ JWE_ALG_ALGORITHMS /\
  valid_key (AESGCMAlgorithm 128) (oct key16) /\
  16 <= len cek17 <= 64 /\
  wrap_unwrap_identity (AESGCMAlgorithm 128) (oct key16) cek17 w0.
Proof.
  assert (Hin : AESGCMAlgorithm 128 ∈ JWE_ALG_ALGORITHMS)
    by repeat constructor.
  assert (Hkey : valid_key (AESGCMAlgorithm 128) (oct key16))
    by (exists key16; repeat split).
  assert (Hlen : 16 <= len cek17 <= 64) by (vm_compute; split; discriminate).
  split; [exact Hin |]. split; [exact Hkey |]. split; [exact Hlen |].
  apply (C2_wrap_unwrap_identity (AESGCMAlgorithm 128) (oct key16) cek17 w0
           Hin Hkey Hlen).
  discriminate.
Defined.

(** C2 as the spec states it fails for A128KW on a CEK of 17 bytes: the
    key is valid and the CEK has between 16 and 64 bytes, but the key-wrap
    transform takes whole 64-bit blocks only, and [wrap] raises. *)
Lemma C2_counterexample :
  AESAlgorithm 128 ∈ JWE_ALG_ALGORITHMS /\
  valid_key (AESAlgorithm 128) (oct key16) /\
  16 <= len cek17 <= 64 /\
  wrap (AESAlgorithm 128) cek17 ∅ (oct key16) w0
  = (Raise (ValueError "The key to wrap must be a multiple of 8 bytes"), w0) /\
  ~ wrap_unwrap_identity (AESAlgorithm 128) (oct key16) cek17 w0.
Proof.
  split; [repeat constructor |].
  split; [exists key16; repeat split |].
  split; [vm_compute; split; discriminate |].
  split; [vm_compute; reflexivity |].
  intros (r & w1 & w2 & Hwrap & _). vm_compute in Hwrap. discriminate.
Qed.

(** The size floor is on [wrap] only: the 1024-bit key that [wrap]
    rejects unwraps. *)
Example small_rsa_key_wraps_not_but_unwraps :
  is_Raise (wrap RSA1_5 cek16 ∅ (rsa_private 1024) w0).1 = true /\
  (unwrap RSA1_5 (mask <$> cek16) ∅ (rsa_private 1024) w0).1
  = Return (Some cek16).
Proof. split; vm_compute; reflexivity. Qed.

(** A flipped bit in the tag: [finalize] raises, and [unwrap] with it. *)
Example gcm_flipped_tag :
  exists ek h tag tag',
    (wrap (AESGCMAlgorithm 128) cek16 ∅ (oct key16) w0).1
    = Return (WDict ek h) /\
    h !! "tag" = Some tag /\
    tag' <> tag /\
    (unwrap (AESGCMAlgorithm 128) ek h (oct key16) w0).1
    = Return (Some cek16) /\
    (unwrap (AESGCMAlgorithm 128) ek (<["tag" := tag']> h) (oct key16) w0).1
    = Raise InvalidTag.
Proof.
  do 2 eexists.
  exists (String.string_of_list_byte (toy_tag cek16)),
         (String.string_of_list_byte (x01 :: drop 1 (toy_tag cek16))).
  split; [vm_compute; reflexivity |].
  split; [vm_compute; reflexivity |].
  split; [vm_compute; discriminate |].
  split; vm_compute; reflexivity.
Qed.
End Witnesses.

(** * Further properties of the algorithms *)

(** ** How [wrap] and [unwrap] use the key and the headers *)

Section KeyAndHeaders.
Context `{Helpers}.

(** X1. When [key.get_op_key] raises, [wrap] and [unwrap] of the RSA, the
    AES-KW and the AES-GCM classes raise the same exception; nothing was
    drawn from the random source and the backend was not called. *)
Theorem X1_get_op_key_error_propagates
    (alg : JWEAlgorithm) (data : bytes) (headers : headers_t)
    (key : Key) (e : exn) (w : world) :
  is_ECDH alg = false ->
  (get_op_key key "wrapKey" = Raise e ->
     wrap alg data headers key w = (Raise e, w))
  /\
  (get_op_key key "unwrapKey" = Raise e ->
     unwrap alg data headers key w = (Raise e, w)).
Proof.
  intros Halg.
  destruct alg as [nm ds pad | ks | ks | ks]; [| | | discriminate];
    split; intros Hk; cbn [wrap unwrap];
    unfold RSAAlgorithm_wrap, RSAAlgorithm_unwrap,
           AESAlgorithm_wrap, AESAlgorithm_unwrap,
           AESGCMAlgorithm_wrap, AESGCMAlgorithm_unwrap;
    unfold bind, lift; rewrite Hk; reflexivity.
Qed.

(** X2. [wrap] looks at the key only through [get_op_key('wrapKey')], and
    [unwrap] only through [get_op_key('unwrapKey')]: two keys that give the
    same object for the operation behave alike. In particular [wrap] needs
    no private key. *)
Theorem X2_only_the_operation_key_matters
    (alg : JWEAlgorithm) (data : bytes) (headers : headers_t)
    (key1 key2 : Key) (w : world) :
  (get_op_key key1 "wrapKey" = get_op_key key2 "wrapKey" ->
     wrap alg data headers key1 w = wrap alg data headers key2 w)
  /\
  (get_op_key key1 "unwrapKey" = get_op_key key2 "unwrapKey" ->
     unwrap alg data headers key1 w = unwrap alg data headers key2 w).
Proof.
  destruct alg as [nm ds pad | ks | ks | ks];
    split; intros Hk; cbn [wrap unwrap];
    unfold RSAAlgorithm_wrap, RSAAlgorithm_unwrap,
           AESAlgorithm_wrap, AESAlgorithm_unwrap,
           AESGCMAlgorithm_wrap, AESGCMAlgorithm_unwrap,
           ECDHAlgorithm_wrap, ECDHAlgorithm_unwrap;
    rewrite ?Hk; reflexivity.
Qed.

(** X3. The [headers] argument matters to AES-GCM [unwrap] only, and there
    only through the fields [iv] and [tag]: no [wrap] reads it, and [unwrap]
    gives the same on two header mappings that agree on those two fields. *)
Theorem X3_only_iv_and_tag_are_read
    (alg : JWEAlgorithm) (data : bytes) (headers1 headers2 : headers_t)
    (key : Key) (w : world) :
  wrap alg data headers1 key w = wrap alg data headers2 key w
  /\
  (headers1 !! "iv" = headers2 !! "iv" ->
   headers1 !! "tag" = headers2 !! "tag" ->
     unwrap alg data headers1 key w = unwrap alg data headers2 key w).
Proof.
  destruct alg as [nm ds pad | ks | ks | ks];
    (split; [reflexivity |]); intros Hiv Htag; try reflexivity.
  cbn [unwrap]. unfold AESGCMAlgorithm_unwrap.
  rewrite Hiv, Htag. reflexivity.
Qed.

(** X4. AES-GCM [unwrap] takes an [iv] or a [tag] that is present but empty
    for a missing one: the test is [not iv], and the empty string is
    false. *)
Theorem X4_gcm_unwrap_empty_header_is_missing
    (key_size : Z) (ek : bytes) (headers : headers_t)
    (key : Key) (k : bytes) (w : world) :
  get_op_key key "unwrapKey" = Return (RawBytes k) ->
  len k * 8 = key_size ->
  (headers !! "iv" = Some "" ->
     AESGCMAlgorithm_unwrap key_size ek headers key w
     = (Raise (missing_header "iv"), w))
  /\
  (falsy (headers !! "iv") = false -> headers !! "tag" = Some "" ->
     AESGCMAlgorithm_unwrap key_size ek headers key w
     = (Raise (missing_header "tag"), w)).
Proof.
  intros Hk Hsize.
  pose proof (check_key_match key_size k w Hsize) as Hck.
  rewrite <- AESGCMAlgorithm_check_key_eq in Hck.
  split; [intros Hiv | intros Hiv Htag]; unfold AESGCMAlgorithm_unwrap;
    rewrite (bind_Return _ _ w (RawBytes k) w) by (by rewrite lift_run, Hk);
    rewrite (bind_Return _ _ w tt w) by exact Hck.
  - rewrite Hiv. reflexivity.
  - rewrite Hiv, Htag. reflexivity.
Qed.

(** X5. AES-GCM [unwrap] decodes [iv], then [tag], before it builds the
    cipher: when the base64url decoding of one of them raises, [unwrap]
    raises the same exception (that of [iv] first) and the backend was not
    called. *)
Theorem X5_gcm_unwrap_decoding_error
    (key_size : Z) (ek : bytes) (headers : headers_t)
    (key : Key) (k : bytes) (iv tag : string) (e : exn) (w : world) :
  get_op_key key "unwrapKey" = Return (RawBytes k) ->
  len k * 8 = key_size ->
  headers !! "iv" = Some iv -> iv <> "" ->
  headers !! "tag" = Some tag -> tag <> "" ->
  (urlsafe_b64decode (to_bytes iv) = Raise e ->
     AESGCMAlgorithm_unwrap key_size ek headers key w = (Raise e, w))
  /\
  (is_Return (urlsafe_b64decode (to_bytes iv)) = true ->
   urlsafe_b64decode (to_bytes tag) = Raise e ->
     AESGCMAlgorithm_unwrap key_size ek headers key w = (Raise e, w)).
Proof.
  intros Hk Hsize Hiv Hivne Htag Htagne.
  pose proof (check_key_match key_size k w Hsize) as Hck.
  rewrite <- AESGCMAlgorithm_check_key_eq in Hck.
  split; [intros Hdiv | intros Hdiv Hdtag]; unfold AESGCMAlgorithm_unwrap;
    rewrite (bind_Return _ _ w (RawBytes k) w) by (by rewrite lift_run, Hk);
    rewrite (bind_Return _ _ w tt w) by exact Hck;
    rewrite Hiv, Htag; cbn [falsy from_option id];
    rewrite !bool_decide_false by assumption.
  - apply bind_Raise. by rewrite lift_run, Hdiv.
  - destruct (urlsafe_b64decode (to_bytes iv)) as [iv_b | e'] eqn:Hivb;
      [| discriminate].
    rewrite (bind_Return _ _ w iv_b w) by reflexivity.
    apply bind_Raise. by rewrite lift_run, Hdtag.
Qed.

(** X6. An AES-KW or AES-GCM instance whose [key_size] is not a multiple of
    8 has no fitting key: [wrap] and [unwrap] raise the size error on every
    octet key, since the check compares [len(key) * 8] with [key_size]. *)
Theorem X6_key_size_off_the_byte_grid
    (alg : JWEAlgorithm) (key_size : Z) (data : bytes) (headers : headers_t)
    (key : Key) (k : bytes) (w : world) :
  alg = AESAlgorithm key_size \/ alg = AESGCMAlgorithm key_size ->
  key_size mod 8 <> 0 ->
  (get_op_key key "wrapKey" = Return (RawBytes k) ->
     wrap alg data headers key w = (Raise (key_size_required key_size), w))
  /\
  (get_op_key key "unwrapKey" = Return (RawBytes k) ->
     unwrap alg data headers key w = (Raise (key_size_required key_size), w)).
Proof.
  intros Halg Hmod.
  assert (Hne : len k * 8 <> key_size).
  { intros <-. apply Hmod. apply Z.mod_mul. lia. }
  pose proof (check_key_mismatch key_size k w Hne) as Hck.
  pose proof Hck as Hck'. rewrite <- AESGCMAlgorithm_check_key_eq in Hck'.
  destruct Halg as [-> | ->]; split; intros Hk; cbn [wrap unwrap];
    unfold AESAlgorithm_wrap, AESAlgorithm_unwrap,
           AESGCMAlgorithm_wrap, AESGCMAlgorithm_unwrap;
    unfold bind, lift; rewrite Hk; cbv beta iota;
    rewrite ?Hck, ?Hck'; reflexivity.
Qed.

(** X7. The ECDH instances do nothing: whatever the CEK, the headers and
    the key, [wrap] and [unwrap] return [None], without a look at the key
    and without a call; so [wrap] followed by [unwrap] never gives the CEK
    back. *)
Theorem X7_ecdh_is_a_no_op
    (key_size : option Z) (data : bytes) (headers : headers_t)
    (key : Key) (w : world) :
  wrap (ECDHAlgorithm key_size) data headers key w = (Return WNone, w) /\
  unwrap (ECDHAlgorithm key_size) data headers key w = (Return None, w) /\
  ~ wrap_unwrap_identity (ECDHAlgorithm key_size) key data w.
Proof.
  split; [reflexivity |]. split; [reflexivity |].
  intros (r & w2 & w3 & Hwrap & Hunwrap).
  cbn in Hwrap. injection Hwrap as <- <-.
  cbn in Hunwrap. discriminate.
Qed.
End KeyAndHeaders.

(** ** When [wrap] and [unwrap] return, and what *)

Section Returns.
Context `{Helpers}.

Lemma check_key_Return_inv key_size op_key w w' :
  AESAlgorithm_check_key key_size op_key w = (Return tt, w') ->
  exists k, op_key = RawBytes k /\ len k * 8 = key_size /\ w' = w.
Proof.
  unfold AESAlgorithm_check_key. intros Hrun.
  apply bind_Return_inv in Hrun as (n & w2 & Hlen & Hrun).
  rewrite lift_run in Hlen.
  destruct op_key as [rk | k]; [discriminate |].
  injection Hlen as <- <-.
  destruct (Z.eqb_spec (len k * 8) key_size) as [Heq | Hne]; [| discriminate].
  injection Hrun as <-. eauto.
Qed.

(** X8. AES-GCM [wrap] returns exactly when the key has the declared size
    and the cipher accepts it with the 12 bytes that one call to the random
    source gave as IV. It then returns the ciphertext of the CEK with the
    headers [iv], the encoding of those 12 bytes, and [tag], the encoding
    of the tag the encryptor has after [finalize]; it has drawn from the
    random source once and called the cipher three times. *)
Theorem X8_gcm_wrap_returns
    (key_size : Z) (cek : bytes) (headers : headers_t) (key : Key)
    (w w' : world) (r : wrapped) :
  AESGCMAlgorithm_wrap key_size cek headers key w = (Return r, w')
  <->
  exists k enc f,
    get_op_key key "wrapKey" = Return (RawBytes k) /\
    len k * 8 = key_size /\
    gcm_encryptor k (urandom 12 (rng w)).1 = Return enc /\
    gcm_finalize (gcm_update enc cek).1 = Return f /\
    r = WDict ((gcm_update enc cek).2 ++ f.2)
          {[ "iv" := to_native (urlsafe_b64encode (urandom 12 (rng w)).1);
             "tag" := to_native (urlsafe_b64encode (gcm_tag f.1)) ]} /\
    w' = World (urandom 12 (rng w)).2
           (calls w ++ [CallUrandom 12; CallGcmEncryptor;
                        CallGcmUpdate; CallGcmFinalize]).
Proof.
  unfold AESGCMAlgorithm_wrap.
  change (Z.to_nat (96 / 8)) with 12%nat. split.
  - intros Hrun.
    apply bind_Return_inv in Hrun as (op_key & w2 & Hop & Hrun).
    rewrite lift_run in Hop. injection Hop as Hop <-.
    apply bind_Return_inv in Hrun as ([] & w3 & Hck & Hrun).
    rewrite AESGCMAlgorithm_check_key_eq in Hck.
    apply check_key_Return_inv in Hck as (k & -> & Hsize & ->).
    apply bind_Return_inv in Hrun as (iv & w4 & Hiv & Hrun).
    rewrite os_urandom_run in Hiv. injection Hiv as <- <-.
    apply bind_Return_inv in Hrun as (enc & w5 & Henc & Hrun).
    rewrite Cipher_encryptor_run in Henc. injection Henc as Henc <-.
    apply bind_Return_inv in Hrun as (u & w6 & Hupd & Hrun).
    rewrite ctx_update_run in Hupd. injection Hupd as <- <-.
    apply bind_Return_inv in Hrun as (f & w7 & Hfin & Hrun).
    rewrite ctx_finalize_run in Hfin. injection Hfin as Hfin <-.
    injection Hrun as <- <-.
    exists k, enc, f. cbn [rng calls]. rewrite <- !app_assoc.
    repeat split; assumption.
  - intros (k & enc & f & Hk & Hsize & Henc & Hfin & -> & ->).
    rewrite (bind_Return _ _ w (RawBytes k) w) by (by rewrite lift_run, Hk).
    rewrite (bind_Return _ _ w tt w)
      by (rewrite AESGCMAlgorithm_check_key_eq; by apply check_key_match).
    erewrite (bind_Return _ _ _ _) by apply os_urandom_run.
    erewrite (bind_Return _ _ _ enc)
      by (rewrite Cipher_encryptor_run; cbn [rng]; rewrite Henc; reflexivity).
    erewrite (bind_Return _ _ _ (gcm_update enc cek)) by apply ctx_update_run.
    erewrite (bind_Return _ _ _ f)
      by (rewrite ctx_finalize_run, Hfin; reflexivity).
    unfold ret. cbn [rng calls]. rewrite <- !app_assoc. reflexivity.
Qed.

(** X9. AES-GCM [unwrap] returns exactly when the key has the declared
    size, [iv] and [tag] are present, non-empty and decode, the cipher
    accepts them, and [finalize] verifies the tag; it then returns the bytes
    the decryptor gave for [ek], and has called the cipher three times and
    the random source not at all. *)
Theorem X9_gcm_unwrap_returns
    (key_size : Z) (ek : bytes) (headers : headers_t) (key : Key)
    (w w' : world) (cek : bytes) :
  AESGCMAlgorithm_unwrap key_size ek headers key w = (Return cek, w')
  <->
  exists k iv tag iv_b tag_b d f,
    get_op_key key "unwrapKey" = Return (RawBytes k) /\
    len k * 8 = key_size /\
    headers !! "iv" = Some iv /\ iv <> "" /\
    headers !! "tag" = Some tag /\ tag <> "" /\
    urlsafe_b64decode (to_bytes iv) = Return iv_b /\
    urlsafe_b64decode (to_bytes tag) = Return tag_b /\
    gcm_decryptor k iv_b tag_b = Return d /\
    gcm_finalize (gcm_update d ek).1 = Return f /\
    cek = (gcm_update d ek).2 ++ f.2 /\
    w' = World (rng w)
           (calls w ++ [CallGcmDecryptor; CallGcmUpdate; CallGcmFinalize]).
Proof.
  unfold AESGCMAlgorithm_unwrap. split.
  - intros Hrun.
    apply bind_Return_inv in Hrun as (op_key & w2 & Hop & Hrun).
    rewrite lift_run in Hop. injection Hop as Hop <-.
    apply bind_Return_inv in Hrun as ([] & w3 & Hck & Hrun).
    rewrite AESGCMAlgorithm_check_key_eq in Hck.
    apply check_key_Return_inv in Hck as (k & -> & Hsize & ->).
    destruct (headers !! "iv") as [iv |] eqn:Hiv; [| discriminate].
    cbn [falsy] in Hrun. case_bool_decide as Hivne; [discriminate |].
    destruct (headers !! "tag") as [tag |] eqn:Htag; [| discriminate].
    cbn [falsy] in Hrun. case_bool_decide as Htagne; [discriminate |].
    cbn [from_option id] in Hrun.
    apply bind_Return_inv in Hrun as (iv_b & w4 & Hdiv & Hrun).
    rewrite lift_run in Hdiv. injection Hdiv as Hdiv <-.
    apply bind_Return_inv in Hrun as (tag_b & w5 & Hdtag & Hrun).
    rewrite lift_run in Hdtag. injection Hdtag as Hdtag <-.
    apply bind_Return_inv in Hrun as (d & w6 & Hdec & Hrun).
    rewrite Cipher_decryptor_run in Hdec. injection Hdec as Hdec <-.
    apply bind_Return_inv in Hrun as (u & w7 & Hupd & Hrun).
    rewrite ctx_update_run in Hupd. injection Hupd as <- <-.
    apply bind_Return_inv in Hrun as (f & w8 & Hfin & Hrun).
    rewrite ctx_finalize_run in Hfin. injection Hfin as Hfin <-.
    injection Hrun as <- <-.
    exists k, iv, tag, iv_b, tag_b, d, f. cbn [rng calls].
    rewrite <- !app_assoc. repeat split; assumption.
  - intros (k & iv & tag & iv_b & tag_b & d & f & Hk & Hsize & Hiv & Hivne
            & Htag & Htagne & Hdiv & Hdtag & Hdec & Hfin & -> & ->).
    rewrite (bind_Return _ _ w (RawBytes k) w) by (by rewrite lift_run, Hk).
    rewrite (bind_Return _ _ w tt w)
      by (rewrite AESGCMAlgorithm_check_key_eq; by apply check_key_match).
    rewrite Hiv, Htag. cbn [falsy from_option id].
    rewrite !bool_decide_false by assumption.
    rewrite (bind_Return _ _ w iv_b w) by (by rewrite lift_run, Hdiv).
    rewrite (bind_Return _ _ w tag_b w) by (by rewrite lift_run, Hdtag).
    erewrite (bind_Return _ _ _ d)
      by (rewrite Cipher_decryptor_run, Hdec; reflexivity).
    erewrite (bind_Return _ _ _ (gcm_update d ek)) by apply ctx_update_run.
    erewrite (bind_Return _ _ _ f)
      by (rewrite ctx_finalize_run, Hfin; reflexivity).
    unfold ret. cbn [rng calls]. rewrite <- !app_assoc. reflexivity.
Qed.

(** X10. AES-KW [wrap] returns exactly when the key has the declared size,
    which is then one of 128, 192 and 256 bits, and the CEK has at least 16
    bytes and a multiple of 8 bytes. It returns the bytes of the key-wrap
    transform alone, after one call to it, and draws nothing from the random
    source. *)
Theorem X10_aes_wrap_returns
    (key_size : Z) (cek : bytes) (headers : headers_t) (key : Key)
    (w w' : world) (r : wrapped) :
  AESAlgorithm_wrap key_size cek headers key w = (Return r, w')
  <->
  exists k,
    get_op_key key "wrapKey" = Return (RawBytes k) /\
    len k * 8 = key_size /\ key_size ∈ [128; 192; 256] /\
    16 <= len cek /\ len cek mod 8 = 0 /\
    r = WBytes (kw_wrap k cek) /\
    w' = World (rng w) (calls w ++ [CallKeyWrap]).
Proof.
  unfold AESAlgorithm_wrap. split.
  - intros Hrun.
    apply bind_Return_inv in Hrun as (op_key & w2 & Hop & Hrun).
    rewrite lift_run in Hop. injection Hop as Hop <-.
    apply bind_Return_inv in Hrun as ([] & w3 & Hck & Hrun).
    apply check_key_Return_inv in Hck as (k & -> & Hsize & ->).
    apply bind_Return_inv in Hrun as (ek & w4 & Hwrap & Hrun).
    injection Hrun as <- <-.
    unfold aes_key_wrap in Hwrap.
    rewrite (bind_Return _ _ w k w) in Hwrap by reflexivity.
    case_bool_decide as Hk; [| discriminate]. cbn [negb] in Hwrap.
    destruct (Z.ltb_spec (len cek) 16); [discriminate |].
    destruct (Z.eqb_spec (len cek mod 8) 0); [| discriminate].
    cbn [negb] in Hwrap.
    rewrite (bind_Return _ _ _ tt _) in Hwrap by apply log_run.
    injection Hwrap as <- <-.
    exists k. repeat split; try assumption.
    rewrite !elem_of_cons, elem_of_nil in *. lia.
  - intros (k & Hk & Hsize & Hin & Hlen & Hmod & -> & ->).
    rewrite (bind_Return _ _ w (RawBytes k) w) by (by rewrite lift_run, Hk).
    rewrite (bind_Return _ _ w tt w) by (by apply check_key_match).
    erewrite bind_Return
      by (apply aes_key_wrap_run;
          [by apply aes_key_sizes_len with key_size | assumption ..]).
    reflexivity.
Qed.

(** X11. AES-KW [unwrap] returns exactly when the key has the declared
    size, one of 128, 192 and 256 bits, the wrapped key has at least 24
    bytes and a multiple of 8 bytes, and the check of the key-wrap transform
    passes; it returns the key the transform recovered, after one call to
    it. *)
Theorem X11_aes_unwrap_returns
    (key_size : Z) (ek : bytes) (headers : headers_t) (key : Key)
    (w w' : world) (cek : bytes) :
  AESAlgorithm_unwrap key_size ek headers key w = (Return cek, w')
  <->
  exists k,
    get_op_key key "unwrapKey" = Return (RawBytes k) /\
    len k * 8 = key_size /\ key_size ∈ [128; 192; 256] /\
    24 <= len ek /\ len ek mod 8 = 0 /\
    kw_unwrap k ek = Some cek /\
    w' = World (rng w) (calls w ++ [CallKeyUnwrap]).
Proof.
  unfold AESAlgorithm_unwrap. split.
  - intros Hrun.
    apply bind_Return_inv in Hrun as (op_key & w2 & Hop & Hrun).
    rewrite lift_run in Hop. injection Hop as Hop <-.
    apply bind_Return_inv in Hrun as ([] & w3 & Hck & Hrun).
    apply check_key_Return_inv in Hck as (k & -> & Hsize & ->).
    apply bind_Return_inv in Hrun as (cek' & w4 & Hun & Hrun).
    injection Hrun as <- <-.
    unfold aes_key_unwrap in Hun.
    destruct (Z.ltb_spec (len ek) 24); [discriminate |].
    destruct (Z.eqb_spec (len ek mod 8) 0); [| discriminate].
    cbn [negb] in Hun.
    rewrite (bind_Return _ _ w k w) in Hun by reflexivity.
    case_bool_decide as Hk; [| discriminate]. cbn [negb] in Hun.
    rewrite (bind_Return _ _ _ tt _) in Hun by apply log_run.
    destruct (kw_unwrap k ek) as [x |] eqn:Hx; [| discriminate].
    injection Hun as <- <-.
    exists k. repeat split; try assumption.
    rewrite !elem_of_cons, elem_of_nil in *. lia.
  - intros (k & Hk & Hsize & Hin & Hlen & Hmod & Hun & ->).
    rewrite (bind_Return _ _ w (RawBytes k) w) by (by rewrite lift_run, Hk).
    rewrite (bind_Return _ _ w tt w) by (by apply check_key_match).
    assert (Hrun : aes_key_unwrap (RawBytes k) ek w
                   = (Return cek, World (rng w) (calls w ++ [CallKeyUnwrap]))).
    { unfold aes_key_unwrap.
      destruct (Z.ltb_spec (len ek) 24); [lia |].
      rewrite Hmod. cbn [Z.eqb negb].
      rewrite (bind_Return _ _ w k w) by reflexivity.
      rewrite bool_decide_true by (by apply aes_key_sizes_len with key_size).
      cbn [negb].
      rewrite (bind_Return _ _ _ tt _) by apply log_run.
      rewrite Hun. reflexivity. }
    erewrite bind_Return by exact Hrun. reflexivity.
Qed.
End Returns.

(** ** Which operations use the random source *)

Section ObliviousFacts.
Context `{Helpers}.

Lemma oblivious_ret {A} (a : A) : oblivious (ret a).
Proof.
  exists (Return a), []. intros [e cs]. unfold ret. cbn. by rewrite app_nil_r.
Qed.

Lemma oblivious_raise {A} (e : exn) : oblivious (raise (A := A) e).
Proof.
  exists (Raise e), []. intros [e' cs]. unfold raise. cbn. by rewrite app_nil_r.
Qed.

Lemma oblivious_lift {A} (r : res A) : oblivious (lift r).
Proof.
  exists r, []. intros [e cs]. unfold lift. cbn. by rewrite app_nil_r.
Qed.

Lemma oblivious_log c : oblivious (log c).
Proof. exists (Return tt), [c]. reflexivity. Qed.

Lemma oblivious_bind {A B} (m : M A) (k : A -> M B) :
  oblivious m -> (forall a, oblivious (k a)) -> oblivious (bind m k).
Proof.
  intros (r & cs & Hm) Hk. destruct r as [a | e].
  - destruct (Hk a) as (r' & cs' & Hka).
    exists r', (cs ++ cs'). intros w. unfold bind. rewrite Hm, Hka.
    cbn. by rewrite app_assoc.
  - exists (Raise e), cs. intros w. unfold bind. by rewrite Hm.
Qed.

(** Works through a computation built from the oblivious steps. *)
Ltac oblivious_steps :=
  repeat first
    [ apply oblivious_ret | apply oblivious_raise | apply oblivious_lift
    | apply oblivious_log
    | apply oblivious_bind; [| intros ?]
    | match goal with
      | |- oblivious (if ?c then _ else _) => destruct c
      | |- oblivious (match ?x with _ => _ end) => destruct x
      end ].

Lemma oblivious_RSAAlgorithm_unwrap pad ek headers key :
  oblivious (RSAAlgorithm_unwrap pad ek headers key).
Proof. unfold RSAAlgorithm_unwrap, op_key_decrypt. oblivious_steps. Qed.

Lemma oblivious_AESAlgorithm_wrap key_size cek headers key :
  oblivious (AESAlgorithm_wrap key_size cek headers key).
Proof.
  unfold AESAlgorithm_wrap, AESAlgorithm_check_key, aes_key_wrap.
  oblivious_steps.
Qed.

Lemma oblivious_AESAlgorithm_unwrap key_size ek headers key :
  oblivious (AESAlgorithm_unwrap key_size ek headers key).
Proof.
  unfold AESAlgorithm_unwrap, AESAlgorithm_check_key, aes_key_unwrap.
  oblivious_steps.
Qed.

Lemma oblivious_AESGCMAlgorithm_unwrap key_size ek headers key :
  oblivious (AESGCMAlgorithm_unwrap key_size ek headers key).
Proof.
  unfold AESGCMAlgorithm_unwrap, AESGCMAlgorithm_check_key,
         Cipher_decryptor, ctx_update, ctx_finalize.
  cbv zeta. oblivious_steps.
Qed.

(** X12. [unwrap] of every class, and [wrap] of the AES-KW and the ECDH
    classes, never touch the random source: for given arguments the result
    and the calls made are the same in every state, and the random source
    is left as it was. Randomness enters through RSA and AES-GCM [wrap]
    only. *)
Theorem X12_no_randomness_outside_rsa_and_gcm_wrap
    (alg : JWEAlgorithm) (data : bytes) (headers : headers_t) (key : Key) :
  oblivious (unwrap alg data headers key)
  /\
  (is_RSA alg = false -> is_AESGCMKW alg = false ->
     oblivious (wrap alg data headers key)).
Proof.
  split.
  - destruct alg as [nm ds pad | ks | ks | ks]; cbn [unwrap].
    + apply oblivious_bind;
        [apply oblivious_RSAAlgorithm_unwrap | intros ?; apply oblivious_ret].
    + apply oblivious_bind;
        [apply oblivious_AESAlgorithm_unwrap | intros ?; apply oblivious_ret].
    + apply oblivious_bind;
        [apply oblivious_AESGCMAlgorithm_unwrap | intros ?; apply oblivious_ret].
    + apply oblivious_ret.
  - intros Hrsa Hgcm.
    destruct alg as [nm ds pad | ks | ks | ks]; try discriminate; cbn [wrap].
    + apply oblivious_AESAlgorithm_wrap.
    + apply oblivious_ret.
Qed.
End ObliviousFacts.

(** ** The identity beyond CEKs of 16 to 64 bytes *)

Section WiderRoundTrip.
Context `{Helpers} {laws : Laws}.

(** X13. With primitives that invert each other, the identity of [wrap] and
    [unwrap] holds for A128GCMKW, A192GCMKW and A256GCMKW on a CEK of any
    length, the empty one included, and for A128KW, A192KW and A256KW on
    every CEK of at least 16 bytes and a multiple of 8 bytes, however
    long. *)
Theorem X13_aes_identity_without_length_bound
    (key_size : Z) (key : Key) (cek : bytes) (w : world) :
  key_size ∈ [128; 192; 256] ->
  (valid_key (AESGCMAlgorithm key_size) key ->
     wrap_unwrap_identity (AESGCMAlgorithm key_size) key cek w)
  /\
  (valid_key (AESAlgorithm key_size) key ->
   16 <= len cek -> len cek mod 8 = 0 ->
     wrap_unwrap_identity (AESAlgorithm key_size) key cek w).
Proof.
  intros Hin. split.
  - intros Hkey. by apply GCM_round_trip.
  - intros Hkey Hlen Hmod. by apply AES_round_trip.
Qed.

(** X14. With primitives that invert each other, the identity holds for an
    RSA instance with any padding, on a key of at least 2048 bits, for every
    CEK that fits the modulus with the padding: its length plus the overhead
    of the padding is at most the byte length of the modulus. *)
Theorem X14_rsa_identity_within_capacity
    (name description : string) (pad_fn : padding)
    (key : Key) (sk : rsa_key) (cek : bytes) (w : world) :
  rsa_is_private sk = true ->
  get_op_key key "wrapKey" = Return (RawRSA (rsa_public_key sk)) ->
  get_op_key key "unwrapKey" = Return (RawRSA sk) ->
  2048 <= rsa_key_size sk ->
  len cek + padding_overhead pad_fn <= rsa_key_size sk / 8 ->
  wrap_unwrap_identity (RSAAlgorithm name description pad_fn) key cek w.
Proof.
  intros Hpriv Hwk Huk Hsize Hfit. unfold wrap_unwrap_identity.
  destruct (rsa_round_trip sk cek pad_fn (rng w) Hpriv Hfit)
    as (c & e' & Henc & Hdec).
  cbn [wrap].
  rewrite (RSAAlgorithm_wrap_large pad_fn cek ∅ key _ w Hwk)
    by (by rewrite rsa_public_key_size).
  rewrite Henc. cbn [fst snd res_map res_bind].
  do 3 eexists. split; [reflexivity |].
  cbn [unwrap_wrapped unwrap].
  erewrite bind_Return
    by (rewrite (RSAAlgorithm_unwrap_decrypts pad_fn c ∅ key sk _ Huk), Hdec;
        reflexivity).
  reflexivity.
Qed.
End WiderRoundTrip.

(** ** The names of the instances *)

Section Names.

Lemma chars_app s t : chars (s +:+ t) = chars s ++ chars t.
Proof.
  unfold chars. induction s as [| c s IH]; [reflexivity |].
  simpl. f_equal. exact IH.
Qed.

Lemma chars_inj s t : chars s = chars t -> s = t.
Proof.
  unfold chars. intros Heq.
  rewrite <- (String.string_of_list_ascii_of_string s),
          <- (String.string_of_list_ascii_of_string t).
  by rewrite Heq.
Qed.

Lemma pretty_N_char_int_char x : pretty_N_char x ∈ int_chars.
Proof.
  unfold pretty_N_char, int_chars, chars. cbn.
  repeat case_match; repeat constructor.
Qed.

Lemma pretty_N_go_chars x s :
  exists ds, chars (pretty_N_go x s) = ds ++ chars s /\
             Forall (fun c => c ∈ int_chars) ds.
Proof.
  revert s. induction (N.lt_wf_0 x) as [x _ IH]. intros s.
  destruct (decide (x = 0%N)) as [-> | Hpos].
  - exists []. by rewrite pretty_N_go_0.
  - rewrite pretty_N_go_step by lia.
    destruct (IH (x `div` 10)%N) with
      (s := String (pretty_N_char (x `mod` 10)) s) as (ds & Hds & Hall).
    { apply N.div_lt; lia. }
    exists (ds ++ [pretty_N_char (x `mod` 10)]). split.
    + rewrite Hds. cbn. by rewrite <- app_assoc.
    + apply Forall_app. split; [assumption |].
      constructor; [apply pretty_N_char_int_char | constructor].
Qed.

(** [str.format] prints an [int] with digits and the minus sign only. *)
Lemma format_int_chars z : Forall (fun c => c ∈ int_chars) (chars (format_int z)).
Proof.
  assert (Hpos : forall p : positive,
            Forall (fun c => c ∈ int_chars) (chars (pretty (N.pos p)))).
  { intros p. unfold pretty, pretty_N.
    destruct (decide (N.pos p = 0%N)); [discriminate |].
    destruct (pretty_N_go_chars (N.pos p) "") as (ds & -> & Hall).
    by rewrite app_nil_r. }
  unfold format_int, pretty, pretty_Z. destruct z as [| p | p].
  - repeat constructor.
  - apply Hpos.
  - rewrite chars_app. apply Forall_app. split; [| apply Hpos].
    repeat constructor.
Qed.

Lemma format_int_suffix_inj a b suffix :
  format_int a +:+ suffix = format_int b +:+ suffix -> a = b.
Proof.
  intros Heq. apply (f_equal chars) in Heq. rewrite !chars_app in Heq.
  apply app_inv_tail in Heq. apply chars_inj in Heq.
  by apply (inj pretty) in Heq.
Qed.

Lemma AESAlgorithm_name_not_GCM a b :
  AESAlgorithm_name a <> AESGCMAlgorithm_name b.
Proof.
  unfold AESAlgorithm_name, AESGCMAlgorithm_name. intros Heq.
  injection Heq as Heq.
  apply (f_equal chars) in Heq. rewrite !chars_app in Heq.
  change (chars "") with (@nil Ascii.ascii) in Heq. rewrite !app_nil_l in Heq.
  change (chars "GCMKW") with (chars "GCM" ++ chars "KW") in Heq.
  rewrite app_assoc in Heq. apply app_inv_tail in Heq.
  pose proof (format_int_chars a) as Hall. rewrite Heq in Hall.
  apply Forall_app in Hall as [_ Hall].
  apply Forall_cons in Hall as [HG _].
  unfold int_chars, chars in HG. cbn in HG.
  rewrite !elem_of_cons, elem_of_nil in HG.
  repeat (destruct HG as [HG | HG]; [discriminate |]). exact HG.
Qed.

(** X15. The name tells the instance: two instances of the AES-KW, AES-GCM
    and ECDH classes with the same name are the same instance, with the same
    key size; and the nine names of the list are pairwise distinct, so that
    none of its instances hides another under its name. *)
Theorem X15_names_identify_instances :
  (forall a b : JWEAlgorithm,
     is_RSA a = false -> is_RSA b = false -> name a = name b -> a = b)
  /\
  NoDup (name <$> JWE_ALG_ALGORITHMS).
Proof.
  split.
  - intros a b Ha Hb Hname.
    destruct a as [? ? ? | ka | ka | [ka |]]; try discriminate;
      destruct b as [? ? ? | kb | kb | [kb |]]; try discriminate;
      cbn [name] in Hname; try by (cbn in Hname; discriminate Hname).
    + unfold AESAlgorithm_name in Hname. injection Hname as Hname.
      by rewrite (format_int_suffix_inj ka kb "KW" Hname).
    + by destruct (AESAlgorithm_name_not_GCM ka kb).
    + by destruct (AESAlgorithm_name_not_GCM kb ka).
    + unfold AESGCMAlgorithm_name in Hname. injection Hname as Hname.
      by rewrite (format_int_suffix_inj ka kb "GCMKW" Hname).
    + unfold ECDHAlgorithm_name in Hname. cbn in Hname.
      injection Hname as Hname.
      by rewrite (format_int_suffix_inj ka kb "KW" Hname).
    + reflexivity.
  - apply (bool_decide_unpack (NoDup (name <$> JWE_ALG_ALGORITHMS))).
    vm_compute. reflexivity.
Qed.
End Names.

(** ** What [test_rsa_private_key2] asks of the codec *)

Module JWKTestFacts.
Import JWK.

(** X16. Whatever the codec and the key file, [test_rsa_private_key2]
    passes only if the codec loads a document that has [d] and none of [p],
    [q], [dp], [dq], [qi], and dumps the loaded key with these five fields
    equal, as integers, to those of the key file. *)
Theorem X16_test_rsa_private_key2_requires_recovery
    (loads : document -> loaded) (dumps : RSAKey -> string -> option document)
    (RSA_PRIVATE_KEY : document) :
  test_rsa_private_key2 loads dumps RSA_PRIVATE_KEY = true ->
  exists (obj : document) dv key new_obj,
    get_int obj "d" = Some dv /\
    (forall f, f ∈ ["p"; "q"; "dp"; "dq"; "qi"] -> obj !! f = None) /\
    loads obj = Loaded key /\
    dumps key "RSA" = Some new_obj /\
    (forall f, f ∈ ["p"; "q"; "dp"; "dq"; "qi"] ->
       is_Some (get_int new_obj f) /\
       get_int new_obj f = get_int RSA_PRIVATE_KEY f).
Proof.
  unfold test_rsa_private_key2. intros Htest.
  destruct (RSA_PRIVATE_KEY !! "n") as [key_n |]; [| discriminate].
  destruct (RSA_PRIVATE_KEY !! "d") as [key_d |] eqn:Hd; [| discriminate].
  cbv zeta in Htest.
  set (obj := ({[ "kty" := Str "RSA";
                  "kid" := Str "bilbo.baggins@hobbiton.example";
                  "use" := Str "sig";
                  "n" := key_n; "d" := key_d; "e" := Int 65537 ]} : document))
    in *.
  destruct (loads obj) as [key | err] eqn:Hload; [| discriminate].
  destruct (dumps key "RSA") as [new_obj |] eqn:Hdump; [| discriminate].
  apply andb_prop in Htest as [Hpub Hcrt].
  assert (Hobj_d : obj !! "d" = Some key_d) by (by subst obj; simplify_map_eq).
  cbn [forallb] in Hpub. rewrite !andb_true_iff in Hpub.
  destruct Hpub as (_ & _ & Hdd & _).
  rewrite Hobj_d in Hdd. unfold assertBase64IntEqual in Hdd.
  destruct (new_obj !! "d") as [[? | z] |]; try discriminate.
  destruct key_d as [? | dv]; [discriminate |].
  exists obj, dv, key, new_obj.
  split; [unfold get_int; by rewrite Hobj_d |].
  split.
  { intros f Hf. rewrite !elem_of_cons, elem_of_nil in Hf. subst obj.
    destruct Hf as [-> | [-> | [-> | [-> | [-> | []]]]]]; by simplify_map_eq. }
  split; [exact Hload |]. split; [exact Hdump |].
  intros f Hf. rewrite forallb_forall in Hcrt.
  specialize (Hcrt f). unfold assertBase64IntEqual, get_int in *.
  rewrite <- list_elem_of_In in Hcrt. specialize (Hcrt Hf).
  destruct (new_obj !! f) as [[? | a] |]; try discriminate.
  destruct (RSA_PRIVATE_KEY !! f) as [[? | b] |]; try discriminate.
  apply Z.eqb_eq in Hcrt as ->. split; [by eexists | reflexivity].
Qed.

Lemma X16_witness :
  test_rsa_private_key2 (load_rsa rsa_recover_prime_factors) dump_rsa
    small_private_key = true /\
  exists (obj : document) dv key new_obj,
    get_int obj "d" = Some dv /\
    (forall f, f ∈ ["p"; "q"; "dp"; "dq"; "qi"] -> obj !! f = None) /\
    load_rsa rsa_recover_prime_factors obj = Loaded key /\
    dump_rsa key "RSA" = Some new_obj /\
    (forall f, f ∈ ["p"; "q"; "dp"; "dq"; "qi"] ->
       is_Some (get_int new_obj f) /\
       get_int new_obj f = get_int small_private_key f).
Proof.
  assert (Htest : test_rsa_private_key2 (load_rsa rsa_recover_prime_factors)
                    dump_rsa small_private_key = true)
    by (vm_compute; reflexivity).
  split; [exact Htest |].
  exact (X16_test_rsa_private_key2_requires_recovery _ _ _ Htest).
Defined.
End JWKTestFacts.

(** ** The further properties on the small backend *)

Module ExtraWitnesses.
Import Toy ToyLaws.

Lemma X1_witness :
  is_ECDH RSA1_5 = false /\
  get_op_key (rsa_public 2048) "unwrapKey"
  = Raise (ValueError "Invalid key_op for public key") /\
  unwrap RSA1_5 cek16 ∅ (rsa_public 2048) w0
  = (Raise (ValueError "Invalid key_op for public key"), w0).
Proof.
  split; [reflexivity |]. split; [reflexivity |].
  exact (proj2 (X1_get_op_key_error_propagates RSA1_5 cek16 ∅ (rsa_public 2048)
                  (ValueError "Invalid key_op for public key") w0 eq_refl)
               eq_refl).
Defined.

Lemma X2_witness :
  get_op_key (rsa_private 2048) "wrapKey" = get_op_key (rsa_public 2048) "wrapKey" /\
  wrap RSA1_5 cek16 ∅ (rsa_private 2048) w0
  = wrap RSA1_5 cek16 ∅ (rsa_public 2048) w0.
Proof.
  split; [reflexivity |].
  exact (proj1 (X2_only_the_operation_key_matters RSA1_5 cek16 ∅
                  (rsa_private 2048) (rsa_public 2048) w0) eq_refl).
Defined.

Lemma X3_witness :
  headers16 !! "iv" = headers_alg !! "iv" /\
  headers16 !! "tag" = headers_alg !! "tag" /\
  headers16 <> headers_alg /\
  unwrap (AESGCMAlgorithm 128) ek16 headers16 (oct key16) w0
  = unwrap (AESGCMAlgorithm 128) ek16 headers_alg (oct key16) w0.
Proof.
  assert (Hiv : headers16 !! "iv" = headers_alg !! "iv")
    by (vm_compute; reflexivity).
  assert (Htag : headers16 !! "tag" = headers_alg !! "tag")
    by (vm_compute; reflexivity).
  split; [exact Hiv |]. split; [exact Htag |]. split.
  - intros Heq. apply (f_equal (fun h : headers_t => h !! "alg")) in Heq.
    vm_compute in Heq. discriminate.
  - exact (proj2 (X3_only_iv_and_tag_are_read (AESGCMAlgorithm 128) ek16
                    headers16 headers_alg (oct key16) w0) Hiv Htag).
Defined.

Lemma X4_witness :
  get_op_key (oct key16) "unwrapKey" = Return (RawBytes key16) /\
  len key16 * 8 = 128 /\
  headers_empty_iv !! "iv" = Some "" /\
  AESGCMAlgorithm_unwrap 128 ek16 headers_empty_iv (oct key16) w0
  = (Raise (missing_header "iv"), w0).
Proof.
  assert (Hiv : headers_empty_iv !! "iv" = Some "") by (vm_compute; reflexivity).
  split; [reflexivity |]. split; [reflexivity |]. split; [exact Hiv |].
  exact (proj1 (X4_gcm_unwrap_empty_header_is_missing 128 ek16 headers_empty_iv
                  (oct key16) key16 w0 eq_refl eq_refl) Hiv).
Defined.

Lemma X6_witness :
  100 mod 8 <> 0 /\
  get_op_key (oct key16) "wrapKey" = Return (RawBytes key16) /\
  wrap (AESAlgorithm 100) cek16 ∅ (oct key16) w0
  = (Raise (ValueError "A key of size 100 bits is required."), w0).
Proof.
  assert (Hmod : 100 mod 8 <> 0) by discriminate.
  split; [exact Hmod |]. split; [reflexivity |].
  exact (proj1 (X6_key_size_off_the_byte_grid (AESAlgorithm 100) 100 cek16 ∅
                  (oct key16) key16 w0 (or_introl eq_refl) Hmod) eq_refl).
Defined.

Lemma X7_witness :
  wrap (ECDHAlgorithm (Some 128)) cek16 ∅ (oct key16) w0 = (Return WNone, w0) /\
  ~ wrap_unwrap_identity (ECDHAlgorithm (Some 128)) (oct key16) cek16 w0.
Proof.
  split.
  - exact (proj1 (X7_ecdh_is_a_no_op (Some 128) cek16 ∅ (oct key16) w0)).
  - exact (proj2 (proj2 (X7_ecdh_is_a_no_op (Some 128) cek16 ∅ (oct key16) w0))).
Defined.

Lemma X8_witness :
  get_op_key (oct key16) "wrapKey" = Return (RawBytes key16) /\
  len key16 * 8 = 128 /\
  AESGCMAlgorithm_wrap 128 cek16 ∅ (oct key16) w0
  = (Return (WDict ek16 headers16),
     World (19%nat : entropy)
       [CallUrandom 12; CallGcmEncryptor; CallGcmUpdate; CallGcmFinalize]).
Proof.
  split; [reflexivity |]. split; [reflexivity |].
  apply (proj2 (X8_gcm_wrap_returns 128 cek16 ∅ (oct key16) w0 _ _)).
  exists key16, (ToyCtx None []), (ToyCtx None cek16, []).
  split; [reflexivity |]. split; [reflexivity |].
  split; [vm_compute; reflexivity |]. split; [vm_compute; reflexivity |].
  split; vm_compute; reflexivity.
Defined.

Lemma X9_witness :
  AESGCMAlgorithm_unwrap 128 ek16 headers16 (oct key16) w0
  = (Return cek16,
     World (7%nat : entropy) [CallGcmDecryptor; CallGcmUpdate; CallGcmFinalize]) /\
  exists k iv tag iv_b tag_b d f,
    get_op_key (oct key16) "unwrapKey" = Return (RawBytes k) /\
    len k * 8 = 128 /\
    headers16 !! "iv" = Some iv /\ iv <> "" /\
    headers16 !! "tag" = Some tag /\ tag <> "" /\
    urlsafe_b64decode (to_bytes iv) = Return iv_b /\
    urlsafe_b64decode (to_bytes tag) = Return tag_b /\
    gcm_decryptor k iv_b tag_b = Return d /\
    gcm_finalize (gcm_update d ek16).1 = Return f /\
    cek16 = (gcm_update d ek16).2 ++ f.2 /\
    World (7%nat : entropy) [CallGcmDecryptor; CallGcmUpdate; CallGcmFinalize]
    = World (rng w0)
        (calls w0 ++ [CallGcmDecryptor; CallGcmUpdate; CallGcmFinalize]).
Proof.
  assert (Hrun : AESGCMAlgorithm_unwrap 128 ek16 headers16 (oct key16) w0
                 = (Return cek16,
                    World (7%nat : entropy)
                      [CallGcmDecryptor; CallGcmUpdate; CallGcmFinalize]))
    by (vm_compute; reflexivity).
  split; [exact Hrun |].
  exact (proj1 (X9_gcm_unwrap_returns 128 ek16 headers16 (oct key16) w0 _ _) Hrun).
Defined.

Lemma X10_witness :
  AESAlgorithm_wrap 128 cek16 ∅ (oct key16) w0
  = (Return (WBytes wrapped16), World (7%nat : entropy) [CallKeyWrap]) /\
  exists k,
    get_op_key (oct key16) "wrapKey" = Return (RawBytes k) /\
    len k * 8 = 128 /\ 128 ∈ [128; 192; 256] /\
    16 <= len cek16 /\ len cek16 mod 8 = 0 /\
    WBytes wrapped16 = WBytes (kw_wrap k cek16) /\
    World (7%nat : entropy) [CallKeyWrap]
    = World (rng w0) (calls w0 ++ [CallKeyWrap]).
Proof.
  assert (Hrun : AESAlgorithm_wrap 128 cek16 ∅ (oct key16) w0
                 = (Return (WBytes wrapped16),
                    World (7%nat : entropy) [CallKeyWrap]))
    by (vm_compute; reflexivity).
  split; [exact Hrun |].
  exact (proj1 (X10_aes_wrap_returns 128 cek16 ∅ (oct key16) w0 _ _) Hrun).
Defined.

Lemma X11_witness :
  AESAlgorithm_unwrap 128 wrapped16 ∅ (oct key16) w0
  = (Return cek16, World (7%nat : entropy) [CallKeyUnwrap]) /\
  exists k,
    get_op_key (oct key16) "unwrapKey" = Return (RawBytes k) /\
    len k * 8 = 128 /\ 128 ∈ [128; 192; 256] /\
    24 <= len wrapped16 /\ len wrapped16 mod 8 = 0 /\
    kw_unwrap k wrapped16 = Some cek16 /\
    World (7%nat : entropy) [CallKeyUnwrap]
    = World (rng w0) (calls w0 ++ [CallKeyUnwrap]).
Proof.
  assert (Hrun : AESAlgorithm_unwrap 128 wrapped16 ∅ (oct key16) w0
                 = (Return cek16, World (7%nat : entropy) [CallKeyUnwrap]))
    by (vm_compute; reflexivity).
  split; [exact Hrun |].
  exact (proj1 (X11_aes_unwrap_returns 128 wrapped16 ∅ (oct key16) w0 _ _) Hrun).
Defined.

Lemma X12_witness :
  is_RSA (AESAlgorithm 128) = false /\
  is_AESGCMKW (AESAlgorithm 128) = false /\
  oblivious (unwrap (AESGCMAlgorithm 128) ek16 headers16 (oct key16)) /\
  oblivious (wrap (AESAlgorithm 128) cek16 ∅ (oct key16)).
Proof.
  split; [reflexivity |]. split; [reflexivity |]. split.
  - exact (proj1 (X12_no_randomness_outside_rsa_and_gcm_wrap
                    (AESGCMAlgorithm 128) ek16 headers16 (oct key16))).
  - exact (proj2 (X12_no_randomness_outside_rsa_and_gcm_wrap
                    (AESAlgorithm 128) cek16 ∅ (oct key16)) eq_refl eq_refl).
Defined.

(** AES-GCM [wrap] is not oblivious: it moves the random source on. *)
Example gcm_wrap_draws :
  ~ oblivious (wrap (AESGCMAlgorithm 128) cek16 ∅ (oct key16)).
Proof.
  intros (r & cs & Hrun). specialize (Hrun w0).
  apply (f_equal (fun x => rng x.2)) in Hrun. vm_compute in Hrun. discriminate.
Qed.

Lemma X13_witness :
  128 ∈ [128; 192; 256] /\
  valid_key (AESGCMAlgorithm 128) (oct key16) /\
  wrap_unwrap_identity (AESGCMAlgorithm 128) (oct key16) [] w0.
Proof.
  assert (Hin : 128 ∈ [128; 192; 256]) by repeat constructor.
  assert (Hkey : valid_key (AESGCMAlgorithm 128) (oct key16))
    by (exists key16; repeat split).
  split; [exact Hin |]. split; [exact Hkey |].
  exact (proj1 (X13_aes_identity_without_length_bound 128 (oct key16) [] w0 Hin)
               Hkey).
Defined.

Lemma X14_witness :
  rsa_is_private (private_half 2048) = true /\
  get_op_key (rsa_private 2048) "wrapKey"
  = Return (RawRSA (rsa_public_key (private_half 2048))) /\
  get_op_key (rsa_private 2048) "unwrapKey" = Return (RawRSA (private_half 2048)) /\
  2048 <= rsa_key_size (private_half 2048) /\
  len cek200 + padding_overhead PKCS1v15 <= rsa_key_size (private_half 2048) / 8 /\
  wrap_unwrap_identity RSA1_5 (rsa_private 2048) cek200 w0.
Proof.
  assert (Hsize : 2048 <= rsa_key_size (private_half 2048)) by discriminate.
  assert (Hfit : len cek200 + padding_overhead PKCS1v15
                 <= rsa_key_size (private_half 2048) / 8)
    by (vm_compute; discriminate).
  do 3 (split; [reflexivity |]). split; [exact Hsize |]. split; [exact Hfit |].
  exact (X14_rsa_identity_within_capacity "RSA1_5" "RSAES-PKCS1-v1_5" PKCS1v15
           (rsa_private 2048) (private_half 2048) cek200 w0
           eq_refl eq_refl eq_refl Hsize Hfit).
Defined.

Lemma X15_witness :
  is_RSA (AESAlgorithm 128) = false /\
  name (AESAlgorithm 128) = name (AESAlgorithm (64 + 64)) /\
  AESAlgorithm 128 = AESAlgorithm (64 + 64).
Proof.
  split; [reflexivity |]. split; [reflexivity |].
  exact (proj1 X15_names_identify_instances (AESAlgorithm 128)
           (AESAlgorithm (64 + 64)) eq_refl eq_refl eq_refl).
Defined.
End ExtraWitnesses.

Module ExtraWitnessesStrict.
Import Toy.

Lemma X5_witness :
  @get_op_key backend strict_helpers (oct_strict key16) "unwrapKey"
  = Return (RawBytes key16) /\
  len key16 * 8 = 128 /\
  headers_bad_iv !! "iv" = Some "a b" /\
  headers_bad_iv !! "tag" = Some "AAAA" /\
  @urlsafe_b64decode backend strict_helpers
    (@to_bytes backend strict_helpers "a b")
  = Raise (ValueError "Invalid base64-encoded string") /\
  @AESGCMAlgorithm_unwrap backend strict_helpers 128 ek16 headers_bad_iv
    (oct_strict key16) w0
  = (Raise (ValueError "Invalid base64-encoded string"), w0).
Proof.
  assert (Hiv : headers_bad_iv !! "iv" = Some "a b") by (vm_compute; reflexivity).
  assert (Htag : headers_bad_iv !! "tag" = Some "AAAA")
    by (vm_compute; reflexivity).
  assert (Hdec : @urlsafe_b64decode backend strict_helpers
                   (@to_bytes backend strict_helpers "a b")
                 = Raise (ValueError "Invalid base64-encoded string"))
    by (vm_compute; reflexivity).
  split; [reflexivity |]. split; [reflexivity |].
  split; [exact Hiv |]. split; [exact Htag |]. split; [exact Hdec |].
  exact (proj1 (@X5_gcm_unwrap_decoding_error backend strict_helpers
                  128 ek16 headers_bad_iv
                  (oct_strict key16) key16 "a b" "AAAA"
                  (ValueError "Invalid base64-encoded string") w0
                  eq_refl eq_refl Hiv ltac:(discriminate) Htag
                  ltac:(discriminate)) Hdec).
Defined.
End ExtraWitnessesStrict.
